(** * powermon: the 7-byte sensor protocol and one request/response exchange

    A shallow embedding of [powermon.cpp]: the [Packet] layout and its
    checksum, the [Request] constructor, [Response::Get] with its [Ensure]
    guards and per-sensor decoding in single-precision arithmetic,
    [Device::Get] with the three system calls it makes, and the
    constructor, the destructor and [main] with the calls on the terminal
    and what is printed. *)

From Stdlib Require Import ZArith List String Bool Lia QArith Qpower Qabs Permutation.
From Stdlib Require Import Floats.SpecFloat.
Import ListNotations.

Local Open Scope string_scope.
Local Open Scope Z_scope.

(** ** Outcomes of a call

    [Ensure] throws [std::runtime_error(msg)]; a non-void function whose
    control reaches the closing brace without [return] has no defined
    result. Both are kept apart from a normal return. *)

Inductive result (A : Type) : Type :=
| Return (a : A)
| Throw (msg : string)
| Undefined.

Arguments Return {A} a.
Arguments Throw {A} msg.
Arguments Undefined {A}.

Definition bind {A B : Type} (c : result A) (k : A -> result B) : result B :=
  match c with
  | Return a => k a
  | Throw msg => Throw msg
  | Undefined => Undefined
  end.

Declare Scope result_scope.
Delimit Scope result_scope with result.
Notation "c ;; k" := (bind c (fun _ => k))
  (at level 61, right associativity) : result_scope.
Local Open Scope result_scope.

(** [void Ensure(bool cond, const std::string& msg)] *)
Definition Ensure (cond : bool) (msg : string) : result unit :=
  if cond then Return tt else Throw msg.

(** ** Sensors *)

Inductive Sensor : Set := VOLTAGE | CURRENT | POWER | ENERGY | TEST.

(** The enumerator values of [enum Sensor]. *)
Definition code (s : Sensor) : Z :=
  match s with
  | VOLTAGE => 0
  | CURRENT => 1
  | POWER => 2
  | ENERGY => 3
  | TEST => 4
  end.

(** ** Packets: [std::array<uint8_t, 7>] *)

Definition is_byte (z : Z) : Prop := 0 <= z < 256.

(** Conversion to [uint8_t]. *)
Definition to_uint8 (z : Z) : Z := z mod 256.

Definition Packet : Type := list Z.

Definition wf_packet (b : Packet) : Prop :=
  List.length b = 7%nat /\ Forall is_byte b.

(** [Body[i]] as an rvalue. *)
Definition at_ (b : Packet) (i : nat) : Z := nth i b 0.

(** [Body[i] = v]. The source only uses constant indices below 7; outside
    the array the model leaves the packet as it is. *)
Fixpoint store (i : nat) (v : Z) (b : Packet) : Packet :=
  match b, i with
  | [], _ => []
  | _ :: t, O => v :: t
  | h :: t, S j => h :: store j v t
  end.

(** [std::copy(src.begin(), src.end(), Body.begin() + pos)] *)
Fixpoint copy_into (src : list Z) (pos : nat) (b : Packet) : Packet :=
  match src with
  | [] => b
  | x :: rest => copy_into rest (S pos) (store pos x b)
  end.

Definition DEFAULT_ADDR : list Z := [0xc0; 0xa8; 0x01; 0x01].

(** [std::array<uint8_t, 7> Body = {0}] *)
Definition Body_init : Packet := repeat 0 7.

(** [Packet::GetChecksum]: [std::accumulate] over the first six bytes with
    an [unsigned] accumulator (32 bits, wrapping), then the cast to
    [uint8_t]. *)
Definition accumulate (l : list Z) (init : Z) : Z :=
  fold_left (fun acc x => (acc + x) mod 2 ^ 32) l init.

Definition GetChecksum (b : Packet) : Z :=
  to_uint8 (accumulate (firstn 6 b) 0).

(** [Request::Request(Sensor sens)] *)
Definition Request (sens : Z) : Packet :=
  let b0 := store 0 (to_uint8 (Z.lor 0xb0 sens)) Body_init in
  let b1 := copy_into DEFAULT_ADDR 1 b0 in
  store 6 (GetChecksum b1) b1.

(** ** Single-precision arithmetic

    [float] is IEEE 754 binary32 with round-to-nearest-even, taken from the
    parameterised specification of the standard library. *)

Definition f32 : Type := spec_float.
Definition f32_prec : Z := 24.
Definition f32_emax : Z := 128.

(** Conversion of an [int] to [float]. *)
Definition f32_of_int (n : Z) : f32 := binary_normalize f32_prec f32_emax n 0 false.
Definition f32_add (x y : f32) : f32 := SFadd f32_prec f32_emax x y.
Definition f32_div (x y : f32) : f32 := SFdiv f32_prec f32_emax x y.

Definition f32_is_finite (x : f32) : bool :=
  match x with
  | S754_zero _ | S754_finite _ _ _ => true
  | _ => false
  end.

(** The comparison [0.0f <= x]. *)
Definition f32_nonneg (x : f32) : bool := SFleb (S754_zero false) x.

(** The rational number a finite float stands for. *)
Definition f32_value (x : f32) : Q :=
  match x with
  | S754_finite s m e => (inject_Z (cond_Zopp s (Zpos m)) * (2 # 1) ^ e)%Q
  | _ => 0%Q
  end.

Arguments f32_of_int : simpl never.
Arguments f32_add : simpl never.
Arguments f32_div : simpl never.

(** The exponent function [fexp] of binary32. *)
Definition fexp32 (e : Z) : Z := Z.max (e - 24) (-149).

(** Zero, or a positive float with a mantissa below [2^24] and an exponent
    between -40 and 0: the operands the decoder adds. *)
Definition small_nonneg (x : f32) : bool :=
  match x with
  | S754_zero false => true
  | S754_finite false m e => (Zpos m <? 2 ^ 24) && (-40 <=? e) && (e <=? 0)
  | _ => false
  end.

(** A check of all integers from 0 up to [n - 1]. *)
Fixpoint all_below (n : nat) (P : Z -> bool) : bool :=
  match n with
  | O => true
  | S k => P (Z.of_nat k) && all_below k P
  end.

(** ** [Response::Get(Sensor sens)] *)

Definition Response_Get (Body : Packet) (sens : Z) : result f32 :=
  Ensure (at_ Body 0 =? Z.lor 0xa0 sens) "Invalid response type" ;;
  Ensure (at_ Body 6 =? GetChecksum Body) "Invalid checksum" ;;
  match sens with
  | 0 =>
      Ensure (at_ Body 4 =? 0) "VOLTAGE: Body[4]" ;;
      Ensure (at_ Body 5 =? 0) "VOLTAGE: Body[5]" ;;
      Return (f32_add (f32_of_int (256 * at_ Body 1 + at_ Body 2))
                      (f32_div (f32_of_int (at_ Body 3)) (f32_of_int 10)))
  | 1 =>
      Ensure (at_ Body 4 =? 0) "CURRENT: Body[4]" ;;
      Ensure (at_ Body 5 =? 0) "CURRENT: Body[5]" ;;
      Return (f32_add (f32_of_int (256 * at_ Body 1 + at_ Body 2))
                      (f32_div (f32_of_int (at_ Body 3)) (f32_of_int 100)))
  | 2 =>
      Ensure (at_ Body 3 =? 0) "POWER: Body[3]" ;;
      Ensure (at_ Body 4 =? 0) "POWER: Body[4]" ;;
      Ensure (at_ Body 5 =? 0) "POWER: Body[5]" ;;
      Return (f32_of_int (256 * at_ Body 1 + at_ Body 2))
  | 3 =>
      Ensure (at_ Body 4 =? 0) "ENERGY: Body[4]" ;;
      Ensure (at_ Body 5 =? 0) "ENERGY: Body[5]" ;;
      Return (f32_of_int (65536 * at_ Body 1 + 256 * at_ Body 2 + at_ Body 3))
  | 4 =>
      Ensure (at_ Body 1 =? 0) "TEST: Body[1]" ;;
      Ensure (at_ Body 2 =? 0) "TEST: Body[2]" ;;
      Ensure (at_ Body 3 =? 0) "TEST: Body[3]" ;;
      Ensure (at_ Body 4 =? 0) "TEST: Body[4]" ;;
      Ensure (at_ Body 5 =? 0) "TEST: Body[5]" ;;
      Return (f32_of_int 0)
  | _ => Undefined
  end.

(** ** The serial channel and [Device::Get]

    One exchange calls [write], [select] and [read] at most once each. The
    operating system is a record of what each call answers, and every call
    made is appended to a trace. *)

Record OS : Type := {
  write_result : Z;        (* what [::write] returns *)
  select_result : Z;       (* what [::select] returns *)
  fd_isset : bool;         (* [FD_ISSET(Handle, &readSet)] after [::select] *)
  read_result : Z;         (* what [::read] returns *)
  read_bytes : Packet;     (* the bytes [::read] leaves in the buffer *)
  strerror_errno : string  (* [std::strerror(errno)] *)
}.

Inductive Syscall : Type :=
| sys_write (fd : Z) (buf : Packet) (count : Z)
| sys_select (nfds : Z) (tv_sec tv_usec : Z)
| sys_read (fd : Z) (count : Z).

Record World : Type := { os : OS; trace : list Syscall }.

Definition IO (A : Type) : Type := World -> result A * World.

Definition io_bind {A B : Type} (c : IO A) (k : A -> IO B) : IO B :=
  fun w =>
    match c w with
    | (Return a, w') => k a w'
    | (Throw msg, w') => (Throw msg, w')
    | (Undefined, w') => (Undefined, w')
    end.

Definition lift {A : Type} (r : result A) : IO A := fun w => (r, w).

Definition call {A : Type} (c : Syscall) (answer : OS -> A) : IO A :=
  fun w => (Return (answer (os w)), {| os := os w; trace := (trace w ++ [c])%list |}).

Declare Scope io_scope.
Delimit Scope io_scope with io.
Notation "x <- c ;; k" := (io_bind c (fun x => k))
  (at level 61, c at next level, right associativity) : io_scope.
Notation "c ;; k" := (io_bind c (fun _ => k))
  (at level 61, right associativity) : io_scope.

Record Device : Type := { Handle : Z }.

(** [sizeof(Request)] and [sizeof(Response)] *)
Definition sizeof_Packet : Z := 7.

(** [struct timeval timeout = {1, 0}] *)
Definition timeout_sec : Z := 1.
Definition timeout_usec : Z := 0.

Definition CheckResult (res : bool) (op : string) : IO unit :=
  fun w => (Ensure res ("Failed to " ++ op ++ ": " ++ strerror_errno (os w)), w).

Definition SendRequest (d : Device) (sens : Z) : IO unit :=
  (let req := Request sens in
   n <- call (sys_write (Handle d) req sizeof_Packet) write_result ;;
   CheckResult (n =? sizeof_Packet) "send request")%io.

Definition WaitResponse (d : Device) : IO unit :=
  (r <- call (sys_select (Handle d + 1) timeout_sec timeout_usec)
          (fun o => (select_result o, fd_isset o)) ;;
   lift (Ensure ((fst r >? 0) && snd r) "Timeout while reading"))%io.

Definition ReadResponse (d : Device) (sens : Z) : IO f32 :=
  (r <- call (sys_read (Handle d) sizeof_Packet)
          (fun o => (read_result o, read_bytes o)) ;;
   CheckResult (fst r =? sizeof_Packet) "read response" ;;
   lift (Response_Get (snd r) sens))%io.

(** [Device::Get(Sensor sens)] *)
Definition Device_Get (d : Device) (sens : Z) : IO f32 :=
  (SendRequest d sens ;;
   WaitResponse d ;;
   ReadResponse d sens)%io.

(** ** The specification's vocabulary

    The error kinds of the specification, and the message of the
    [std::runtime_error] each one is in the code. *)

Inductive ProtocolError : Type :=
| UnexpectedResponseType
| ChecksumMismatch
| MalformedField (byte : nat) (s : Sensor).

Definition sensor_name (s : Sensor) : string :=
  match s with
  | VOLTAGE => "VOLTAGE"
  | CURRENT => "CURRENT"
  | POWER => "POWER"
  | ENERGY => "ENERGY"
  | TEST => "TEST"
  end.

Definition digit (i : nat) : string :=
  String (Ascii.ascii_of_nat (48 + i)) EmptyString.

Definition what (e : ProtocolError) : string :=
  match e with
  | UnexpectedResponseType => "Invalid response type"
  | ChecksumMismatch => "Invalid checksum"
  | MalformedField i s => sensor_name s ++ ": Body[" ++ digit i ++ "]"
  end.

Definition TimeoutError : string := "Timeout while reading".

(** The bytes each sensor requires to be zero, in the order of the table. *)
Definition required_zero (s : Sensor) : list nat :=
  match s with
  | VOLTAGE | CURRENT | ENERGY => [4; 5]
  | POWER => [3; 4; 5]
  | TEST => [1; 2; 3; 4; 5]
  end%nat.

(** The value column of the table, evaluated in [float] arithmetic: the
    integer part is exact, [B3/10.0] and [B3/100.0] are one division and
    the sum is one addition. *)
Definition value_formula (s : Sensor) (B1 B2 B3 : Z) : f32 :=
  match s with
  | VOLTAGE => f32_add (f32_of_int (256 * B1 + B2)) (f32_div (f32_of_int B3) (f32_of_int 10))
  | CURRENT => f32_add (f32_of_int (256 * B1 + B2)) (f32_div (f32_of_int B3) (f32_of_int 100))
  | POWER => f32_of_int (256 * B1 + B2)
  | ENERGY => f32_of_int (65536 * B1 + 256 * B2 + B3)
  | TEST => f32_of_int 0
  end.

Definition table_value (s : Sensor) (b : Packet) : f32 :=
  value_formula s (at_ b 1) (at_ b 2) (at_ b 3).

Definition type_ok (s : Sensor) (b : Packet) : Prop :=
  at_ b 0 = Z.lor 0xA0 (code s).

Definition checksum_ok (b : Packet) : Prop :=
  at_ b 6 = GetChecksum b.

Definition zeros_ok (s : Sensor) (b : Packet) : Prop :=
  forall i, In i (required_zero s) -> at_ b i = 0.

(** The first required-zero byte that is not zero. *)
Definition first_nonzero (s : Sensor) (b : Packet) : option nat :=
  find (fun i => negb (at_ b i =? 0)) (required_zero s).


(** Appending the checksum to six bytes. *)
Definition with_checksum (body : list Z) : Packet :=
  (body ++ [GetChecksum body])%list.


(** Running an exchange from an empty trace: the outcome and the system
    calls made, in order. *)
Definition run {A : Type} (c : IO A) (o : OS) : result A * list Syscall :=
  let (r, w) := c {| os := o; trace := [] |} in (r, trace w).

(** A line on which nothing arrives: the write goes through and [select]
    reports no readable descriptor. *)
Definition silent_line : OS :=
  {| write_result := 7; select_result := 0; fd_isset := false;
     read_result := 7;
     read_bytes := with_checksum [0xA0; 0x00; 0xE6; 0x05; 0x00; 0x00];
     strerror_errno := "Success" |}.

(** The three calls of an exchange. *)
Definition the_write (d : Device) (sens : Z) : Syscall :=
  sys_write (Handle d) (Request sens) 7.
Definition the_select (d : Device) : Syscall :=
  sys_select (Handle d + 1) 1 0.
Definition the_read (d : Device) : Syscall :=
  sys_read (Handle d) 7.

(** ** The terminal: [Device::Device], [Device::~Device] and [main]

    The constants of [<fcntl.h>] and [<termios.h>] the constructor uses are
    not part of the source: they are taken as a parameter. *)

Record termios_h : Type := {
  O_RDWR : Z; O_NOCTTY : Z; O_SYNC : Z;
  BRKINT : Z; ICRNL : Z; INPCK : Z; ISTRIP : Z; IXON : Z;
  OPOST : Z;
  ECHO : Z; ICANON : Z; IEXTEN : Z; ISIG : Z;
  CSIZE : Z; PARENB : Z; CS8 : Z;
  VMIN : nat; VTIME : nat;
  B9600 : Z;
  TCSANOW : Z
}.

(** The values of these constants on Linux. *)
Definition linux_termios_h : termios_h :=
  {| O_RDWR := 0x2; O_NOCTTY := 0x100; O_SYNC := 0x101000;
     BRKINT := 0x2; ICRNL := 0x100; INPCK := 0x10; ISTRIP := 0x20; IXON := 0x400;
     OPOST := 0x1;
     ECHO := 0x8; ICANON := 0x2; IEXTEN := 0x8000; ISIG := 0x1;
     CSIZE := 0x30; PARENB := 0x100; CS8 := 0x30;
     VMIN := 6; VTIME := 5;
     B9600 := 0xd;
     TCSANOW := 0 |}.

(** [struct termios]: the four flag words ([tcflag_t], 32 bits unsigned),
    the control characters and the two speeds. *)
Record termios : Type := {
  c_iflag : Z;
  c_oflag : Z;
  c_cflag : Z;
  c_lflag : Z;
  c_cc : list Z;
  c_ispeed : Z;
  c_ospeed : Z
}.

(** Conversion of an [int] to [tcflag_t]. *)
Definition to_uint32 (z : Z) : Z := z mod 2 ^ 32.

(** [flags &= ~(mask)]: the complement is taken on [int] and converted to
    [tcflag_t] for the conjunction. *)
Definition clear_flags (flags mask : Z) : Z :=
  Z.land flags (to_uint32 (Z.lnot mask)).

(** [flags |= mask] *)
Definition set_flags (flags mask : Z) : Z :=
  Z.lor flags (to_uint32 mask).

(** Lines 92 to 100 of the constructor: what it changes in the settings
    [tcgetattr] delivered. *)
Definition raw_mode (K : termios_h) (ntio : termios) : termios :=
  let iflag := clear_flags (c_iflag ntio)
                 (Z.lor (Z.lor (Z.lor (Z.lor (BRKINT K) (ICRNL K)) (INPCK K))
                           (ISTRIP K)) (IXON K)) in
  let oflag := clear_flags (c_oflag ntio) (OPOST K) in
  let lflag := clear_flags (c_lflag ntio)
                 (Z.lor (Z.lor (Z.lor (ECHO K) (ICANON K)) (IEXTEN K)) (ISIG K)) in
  let cflag := clear_flags (c_cflag ntio) (Z.lor (CSIZE K) (PARENB K)) in
  let cflag := set_flags cflag (CS8 K) in
  let cc := store (VMIN K) (to_uint8 sizeof_Packet) (c_cc ntio) in
  let cc := store (VTIME K) (to_uint8 1) cc in
  {| c_iflag := iflag; c_oflag := oflag; c_cflag := cflag; c_lflag := lflag;
     c_cc := cc; c_ispeed := c_ispeed ntio; c_ospeed := c_ospeed ntio |}.

(** What the machine answers to the constructor: the results of [open],
    [tcgetattr] (with the settings it stores) and [tcsetattr], the library
    functions [cfsetispeed] and [cfsetospeed], and the line the exchange
    runs on. *)
Record Host : Type := {
  open_result : Z;
  tcgetattr_result : Z;
  tcgetattr_termios : termios;
  cfsetispeed : termios -> Z -> Z * termios;
  cfsetospeed : termios -> Z -> Z * termios;
  tcsetattr_result : Z;
  line : OS
}.

(** What the program does, in order: calls on the terminal, the calls of
    an exchange, and what it writes to [std::cout]. *)
Inductive Event : Type :=
| ev_open (path : string) (flags : Z)
| ev_tcgetattr (fd : Z)
| ev_tcsetattr (fd : Z) (action : Z) (t : termios)
| ev_close (fd : Z)
| ev_exchange (c : Syscall)
| ev_out (s : string)
| ev_out_float (v : f32)
| ev_endl.

Definition Proc (A : Type) : Type := Host -> list Event -> result A * list Event.

Definition proc_bind {A B : Type} (c : Proc A) (k : A -> Proc B) : Proc B :=
  fun h evs =>
    match c h evs with
    | (Return a, evs') => k a h evs'
    | (Throw msg, evs') => (Throw msg, evs')
    | (Undefined, evs') => (Undefined, evs')
    end.

Definition proc_ret {A : Type} (a : A) : Proc A := fun _ evs => (Return a, evs).

Definition emit (e : Event) : Proc unit :=
  fun _ evs => (Return tt, (evs ++ [e])%list).

Definition ask {A : Type} (answer : Host -> A) : Proc A :=
  fun h evs => (Return (answer h), evs).

(** A computation on the line, its calls appended to the events. *)
Definition on_line {A : Type} (c : IO A) : Proc A :=
  fun h evs =>
    let (r, w) := c {| os := line h; trace := [] |} in
    (r, (evs ++ map ev_exchange (trace w))%list).

Declare Scope proc_scope.
Delimit Scope proc_scope with proc.
Notation "x <- c ;; k" := (proc_bind c (fun x => k))
  (at level 61, c at next level, right associativity) : proc_scope.
Notation "c ;; k" := (proc_bind c (fun _ => k))
  (at level 61, right associativity) : proc_scope.

(** [Device::Device(const std::string& path)] *)
Definition Device_new (K : termios_h) (path : string) : Proc Device :=
  (emit (ev_open path (Z.lor (Z.lor (O_RDWR K) (O_NOCTTY K)) (O_SYNC K))) ;;
   fd <- ask open_result ;;
   let dev := {| Handle := fd |} in
   on_line (CheckResult (negb (Handle dev =? -1)) "open") ;;
   emit (ev_tcgetattr (Handle dev)) ;;
   got <- ask (fun h => (tcgetattr_result h, tcgetattr_termios h)) ;;
   on_line (CheckResult (fst got =? 0) "get properties") ;;
   let ntio := raw_mode K (snd got) in
   let SPEED := B9600 K in
   isp <- ask (fun h => cfsetispeed h ntio SPEED) ;;
   on_line (CheckResult (fst isp >=? 0) "set ispeed") ;;
   osp <- ask (fun h => cfsetospeed h (snd isp) SPEED) ;;
   on_line (CheckResult (fst osp >=? 0) "set ospeed") ;;
   emit (ev_tcsetattr (Handle dev) (TCSANOW K) (snd osp)) ;;
   set <- ask tcsetattr_result ;;
   on_line (CheckResult (set =? 0) "set properties") ;;
   proc_ret dev)%proc.

(** [Device::~Device()], run when the scope of [dev] is left, by a return
    or by an exception. *)
Definition Device_delete (dev : Device) : Event := ev_close (Handle dev).

Definition in_scope_of {A : Type} (dev : Device) (body : Proc A) : Proc A :=
  fun h evs =>
    let (r, evs') := body h evs in (r, (evs' ++ [Device_delete dev])%list).

Definition newline : string := String (Ascii.ascii_of_nat 10) EmptyString.

Definition usage : string :=
  " <device> [test|voltage|current|power|energy]" ++ newline.

(** The chain of comparisons on [mode] in [main]. *)
Definition main_mode (dev : Device) (mode : string) : Proc unit :=
  (if (mode =? "test")%string then
     on_line (Device_Get dev (code TEST)) ;;
     emit (ev_out "Ok!") ;; emit ev_endl
   else if (mode =? "voltage")%string then
     v <- on_line (Device_Get dev (code VOLTAGE)) ;;
     emit (ev_out_float v) ;; emit ev_endl
   else if (mode =? "current")%string then
     v <- on_line (Device_Get dev (code CURRENT)) ;;
     emit (ev_out_float v) ;; emit ev_endl
   else if (mode =? "power")%string then
     v <- on_line (Device_Get dev (code POWER)) ;;
     emit (ev_out_float v) ;; emit ev_endl
   else if (mode =? "energy")%string then
     v <- on_line (Device_Get dev (code ENERGY)) ;;
     emit (ev_out_float v) ;; emit ev_endl
   else
     fun _ evs => (Ensure false ("Unknown mode " ++ mode), evs))%proc.

(** The [try] block of [main]. *)
Definition main_try (K : termios_h) (argv : list string) : Proc Z :=
  (dev <- Device_new K (nth 1 argv "") ;;
   in_scope_of dev
     (let mode := nth 2 argv "" in
      main_mode dev mode ;;
      proc_ret 0))%proc.

(** [int main(int argc, const char* argv[])], with [argc] the length of
    [argv]. With no argument at all [argv[0]] is a null pointer and
    printing it has no defined result. *)
Definition main (K : termios_h) (argv : list string) : Proc Z :=
  if Z.of_nat (List.length argv) <? 3 then
    match argv with
    | [] => fun _ evs => (Undefined, evs)
    | argv0 :: _ =>
        (emit (ev_out argv0) ;; emit (ev_out usage) ;; proc_ret 1)%proc
    end
  else
    fun h evs =>
      match main_try K argv h evs with
      | (Throw msg, evs') =>
          (emit (ev_out msg) ;; emit ev_endl ;; proc_ret 1)%proc h evs'
      | other => other
      end.

(** The parts of the specification's vocabulary about the program. *)

Definition constructed (K : termios_h) (h : Host) : bool :=
  let isp := cfsetispeed h (raw_mode K (tcgetattr_termios h)) (B9600 K) in
  let osp := cfsetospeed h (snd isp) (B9600 K) in
  negb (open_result h =? -1) && (tcgetattr_result h =? 0) &&
  (fst isp >=? 0) && (fst osp >=? 0) && (tcsetattr_result h =? 0).

(** The events of a constructor that succeeds. *)
Definition opening (K : termios_h) (path : string) (h : Host) : list Event :=
  let isp := cfsetispeed h (raw_mode K (tcgetattr_termios h)) (B9600 K) in
  let osp := cfsetospeed h (snd isp) (B9600 K) in
  [ev_open path (Z.lor (Z.lor (O_RDWR K) (O_NOCTTY K)) (O_SYNC K));
   ev_tcgetattr (open_result h);
   ev_tcsetattr (open_result h) (TCSANOW K) (snd osp)].

Definition mode_name (s : Sensor) : string :=
  match s with
  | TEST => "test"
  | VOLTAGE => "voltage"
  | CURRENT => "current"
  | POWER => "power"
  | ENERGY => "energy"
  end.

Definition shown (s : Sensor) (v : f32) : Event :=
  match s with
  | TEST => ev_out "Ok!"
  | _ => ev_out_float v
  end.

Definition is_output (e : Event) : bool :=
  match e with
  | ev_out _ | ev_out_float _ | ev_endl => true
  | _ => false
  end.

Definition is_close (e : Event) : bool :=
  match e with
  | ev_close _ => true
  | _ => false
  end.

(** A terminal in cooked mode with every flag bit set. *)
Definition cooked : termios :=
  {| c_iflag := 0xFFFFFFFF; c_oflag := 0xFFFFFFFF; c_cflag := 0xFFFFFFFF;
     c_lflag := 0xFFFFFFFF; c_cc := repeat 0 32; c_ispeed := 0; c_ospeed := 0 |}.

(** A machine on which the terminal opens as descriptor 3 and takes the
    settings, and whose line stays silent. *)
Definition quiet_host : Host :=
  {| open_result := 3; tcgetattr_result := 0; tcgetattr_termios := cooked;
     cfsetispeed := fun t speed =>
       (0, {| c_iflag := c_iflag t; c_oflag := c_oflag t; c_cflag := c_cflag t;
              c_lflag := c_lflag t; c_cc := c_cc t;
              c_ispeed := speed; c_ospeed := c_ospeed t |});
     cfsetospeed := fun t speed =>
       (0, {| c_iflag := c_iflag t; c_oflag := c_oflag t; c_cflag := c_cflag t;
              c_lflag := c_lflag t; c_cc := c_cc t;
              c_ispeed := c_ispeed t; c_ospeed := speed |});
     tcsetattr_result := 0;
     line := silent_line |}.

(** A machine on which the path opens but is not a terminal. *)
Definition not_a_terminal : Host :=
  {| open_result := 3; tcgetattr_result := -1; tcgetattr_termios := cooked;
     cfsetispeed := cfsetispeed quiet_host;
     cfsetospeed := cfsetospeed quiet_host;
     tcsetattr_result := -1;
     line := {| write_result := 7; select_result := 0; fd_isset := false;
                read_result := 7; read_bytes := Body_init;
                strerror_errno := "Inappropriate ioctl for device" |} |}.

(** What is left of [m] after [k] bits have been shifted out into the
    round and sticky bits of [rec]. *)
Definition shr_inv (m k : Z) (rec : shr_record) : Prop :=
  0 <= shr_m rec /\
  exists rem,
    m = shr_m rec * 2 ^ k + rem /\ 0 <= rem < 2 ^ k /\
    (if shr_r rec then 2 ^ k <= 2 * rem else 2 * rem < 2 ^ k) /\
    (shr_s rec = false -> rem = 0 \/ 2 * rem = 2 ^ k).

(** The rational [m * 2^e]. *)
Definition dyadic (m e : Z) : Q := (inject_Z m * (2 # 1) ^ e)%Q.

(** The value column of the table, as a rational number. *)
Definition table_exact (s : Sensor) (B1 B2 B3 : Z) : Q :=
  match s with
  | VOLTAGE => inject_Z (256 * B1 + B2) + inject_Z B3 / 10
  | CURRENT => inject_Z (256 * B1 + B2) + inject_Z B3 / 100
  | POWER => inject_Z (256 * B1 + B2)
  | ENERGY => inject_Z (65536 * B1 + 256 * B2 + B3)
  | TEST => 0
  end%Q.

(** How far a decoded value can be from the table value: one rounding of
    the quotient and one of the sum for voltage and current, nothing for
    the others. *)
Definition rounding_bound (s : Sensor) : Q :=
  match s with
  | VOLTAGE | CURRENT => (1 # 256) + (1 # 1048576)
  | POWER | ENERGY | TEST => 0
  end%Q.

(** What is checked of the quotient [float(c) / d]: it is [+0] for
    [c = 0], else positive with a mantissa below [2^24], an exponent
    between -40 and 0 and a value of at most 26, within [2^-20] of [c/d]. *)
Definition quotient_ok (d c : Z) (q : f32) : bool :=
  match q with
  | S754_zero false => c =? 0
  | S754_finite false m e =>
      (Zpos m <? 2 ^ 24) && (-40 <=? e) && (e <=? 0) &&
      (Zpos m <=? 26 * 2 ^ (- e)) &&
      Qle_bool (Qabs (dyadic (Zpos m) e - inject_Z c / inject_Z d)) (1 # 1048576)
  | _ => false
  end.

(** Linear arithmetic with [mod] and [/] turned into their equations. *)
Ltac mod_lia := Z.div_mod_to_equations; lia.

(** ** Packets and the checksum *)

Lemma wf_packet_inv (b : Packet) :
  wf_packet b ->
  exists b0 b1 b2 b3 b4 b5 b6,
    b = [b0; b1; b2; b3; b4; b5; b6] /\
    is_byte b0 /\ is_byte b1 /\ is_byte b2 /\ is_byte b3 /\
    is_byte b4 /\ is_byte b5 /\ is_byte b6.
Proof.
  intros [Hlen Hall].
  destruct b as [|b0 [|b1 [|b2 [|b3 [|b4 [|b5 [|b6 [|x t]]]]]]]]; try discriminate.
  exists b0, b1, b2, b3, b4, b5, b6.
  repeat match goal with
         | H : Forall _ (_ :: _) |- _ => inversion_clear H
         end.
  repeat first [assumption | reflexivity | split].
Qed.

Lemma wf_packet_intro (b0 b1 b2 b3 b4 b5 b6 : Z) :
  is_byte b0 -> is_byte b1 -> is_byte b2 -> is_byte b3 ->
  is_byte b4 -> is_byte b5 -> is_byte b6 ->
  wf_packet [b0; b1; b2; b3; b4; b5; b6].
Proof.
  intros; split; [reflexivity |].
  repeat (apply Forall_cons; [assumption |]); apply Forall_nil.
Qed.

(** Six bytes never make the 32-bit accumulator wrap: the checksum is the
    plain sum modulo 256. *)
Lemma GetChecksum_sum (b0 b1 b2 b3 b4 b5 : Z) (rest : list Z) :
  is_byte b0 -> is_byte b1 -> is_byte b2 -> is_byte b3 ->
  is_byte b4 -> is_byte b5 ->
  GetChecksum (b0 :: b1 :: b2 :: b3 :: b4 :: b5 :: rest)
  = (b0 + b1 + b2 + b3 + b4 + b5) mod 256.
Proof.
  unfold is_byte, GetChecksum, to_uint8, accumulate; intros.
  cbn [firstn fold_left].
  change (2 ^ 32) with 4294967296.
  rewrite (Z.mod_small (0 + b0)) by lia.
  rewrite (Z.mod_small (0 + b0 + b1)) by lia.
  rewrite (Z.mod_small (0 + b0 + b1 + b2)) by lia.
  rewrite (Z.mod_small (0 + b0 + b1 + b2 + b3)) by lia.
  rewrite (Z.mod_small (0 + b0 + b1 + b2 + b3 + b4)) by lia.
  rewrite (Z.mod_small (0 + b0 + b1 + b2 + b3 + b4 + b5)) by lia.
  reflexivity.
Qed.

Lemma GetChecksum_byte (b : Packet) : is_byte (GetChecksum b).
Proof.
  unfold is_byte, GetChecksum, to_uint8.
  apply Z.mod_pos_bound; lia.
Qed.

Lemma Ensure_true (msg : string) (A : Type) (k : result A) :
  (Ensure true msg ;; k) = k.
Proof. reflexivity. Qed.

Lemma Ensure_false (msg : string) (A : Type) (k : result A) :
  (Ensure false msg ;; k) = Throw msg.
Proof. reflexivity. Qed.

(** ** The request *)

(** C2. For each of the five sensors the request constructor yields
    exactly the seven bytes [0xB0 | code; 0xC0; 0xA8; 0x01; 0x01; 0x00;
    checksum]: byte 5 is zero and byte 6 is the sum of bytes 0 to 5 modulo
    256. The constructor is a total function: it cannot fail. *)
Theorem Request_bytes (s : Sensor) :
  let r := Request (code s) in
  r = [Z.lor 0xB0 (code s); 0xC0; 0xA8; 0x01; 0x01; 0x00;
       (Z.lor 0xB0 (code s) + 0xC0 + 0xA8 + 0x01 + 0x01 + 0x00) mod 256]
  /\ at_ r 5 = 0
  /\ at_ r 6 = (at_ r 0 + at_ r 1 + at_ r 2 + at_ r 3 + at_ r 4 + at_ r 5) mod 256
  /\ wf_packet r.
Proof.
  destruct s; cbv zeta; (split; [reflexivity |]);
    (split; [reflexivity |]); (split; [reflexivity |]);
    apply wf_packet_intro; unfold is_byte; cbn; lia.
Qed.

(** ** Decoding *)

Lemma decode_after_guards (s : Sensor) (b : Packet) :
  type_ok s b -> checksum_ok b ->
  Response_Get b (code s) =
  match first_nonzero s b with
  | Some j => Throw (what (MalformedField j s))
  | None => Return (table_value s b)
  end.
Proof.
  unfold type_ok, checksum_ok, Response_Get, first_nonzero, table_value.
  intros Ht Hc.
  rewrite Ht, <- Hc, !Z.eqb_refl, !Ensure_true.
  destruct s; cbn [code required_zero find value_formula];
    repeat match goal with
           | |- context [at_ b ?i =? 0] =>
               destruct (at_ b i =? 0); cbn [negb Ensure bind]
           end; reflexivity.
Qed.

Lemma first_nonzero_None (s : Sensor) (b : Packet) :
  zeros_ok s b -> first_nonzero s b = None.
Proof.
  unfold zeros_ok, first_nonzero; intros Hz.
  induction (required_zero s) as [|i l IH]; [reflexivity |].
  cbn [find]. rewrite (Hz i) by (left; reflexivity).
  cbn. apply IH. intros j Hj; apply Hz; right; exact Hj.
Qed.

Lemma first_nonzero_Some (s : Sensor) (b : Packet) (i : nat) :
  In i (required_zero s) -> at_ b i <> 0 ->
  exists j, first_nonzero s b = Some j /\ In j (required_zero s) /\
            at_ b j <> 0 /\ (j <= i)%nat /\
            forall k, In k (required_zero s) -> (k < j)%nat -> at_ b k = 0.
Proof.
  intros Hin Hnz.
  assert (Hsorted : forall k, In k (required_zero s) -> (1 <= k <= 5)%nat)
    by (destruct s; cbn; intros k Hk; intuition lia).
  destruct (first_nonzero s b) as [j|] eqn:Hf.
  - exists j. unfold first_nonzero in Hf.
    pose proof (find_some _ _ Hf) as [Hj Hjnz].
    apply negb_true_iff, Z.eqb_neq in Hjnz.
    split; [reflexivity |]. split; [exact Hj |]. split; [exact Hjnz |].
    assert (Hfirst : forall k, In k (required_zero s) -> (k < j)%nat -> at_ b k = 0).
    { revert Hf. clear.
      destruct s; cbn [required_zero find];
        repeat match goal with
               | |- context [at_ b ?i =? 0] =>
                   destruct (Z.eqb_spec (at_ b i) 0); cbn [negb]
               end; intros Hf k Hk Hlt; try discriminate;
        injection Hf as <-; cbn in Hk; intuition (subst; try lia; assumption). }
    split; [| exact Hfirst].
    destruct (Nat.le_gt_cases j i) as [Hle | Hgt]; [exact Hle |].
    exfalso; apply Hnz; apply Hfirst; assumption.
  - exfalso. unfold first_nonzero in Hf.
    pose proof (find_none _ _ Hf i Hin) as Hz.
    apply negb_false_iff, Z.eqb_eq in Hz. contradiction.
Qed.

Lemma what_injective (e1 e2 : ProtocolError) :
  (forall i s, e1 = MalformedField i s -> (i <= 9)%nat) ->
  (forall i s, e2 = MalformedField i s -> (i <= 9)%nat) ->
  what e1 = what e2 -> e1 = e2.
Proof.
  intros H1 H2.
  destruct e1 as [| |i1 s1], e2 as [| |i2 s2];
    try reflexivity; try discriminate;
    try (destruct s2; discriminate); try (destruct s1; discriminate).
  specialize (H1 i1 s1 eq_refl). specialize (H2 i2 s2 eq_refl).
  destruct s1, s2; unfold what, digit; cbn [sensor_name append];
    intros H; try discriminate H; injection H as H;
    apply (f_equal Ascii.nat_of_ascii) in H;
    rewrite !Ascii.nat_ascii_embedding in H by lia;
    f_equal; lia.
Qed.

Lemma decode_bad_type (s : Sensor) (b : Packet) :
  ~ type_ok s b ->
  Response_Get b (code s) = Throw (what UnexpectedResponseType).
Proof.
  unfold type_ok, Response_Get; intros Ht.
  apply Z.eqb_neq in Ht. rewrite Ht. apply Ensure_false.
Qed.

Lemma decode_bad_checksum (s : Sensor) (b : Packet) :
  type_ok s b -> ~ checksum_ok b ->
  Response_Get b (code s) = Throw (what ChecksumMismatch).
Proof.
  unfold type_ok, checksum_ok, Response_Get; intros Ht Hc.
  apply Z.eqb_neq in Hc. rewrite Ht, Z.eqb_refl, Ensure_true, Hc.
  apply Ensure_false.
Qed.

Lemma decode_valid (s : Sensor) (b : Packet) :
  type_ok s b -> checksum_ok b -> zeros_ok s b ->
  Response_Get b (code s) = Return (table_value s b).
Proof.
  intros Ht Hc Hz.
  rewrite (decode_after_guards s b Ht Hc), (first_nonzero_None s b Hz).
  reflexivity.
Qed.

(** C4. Whatever the rest of the frame holds, a response whose byte 0 is
    not [0xA0 | code] of the expected sensor is rejected with
    UnexpectedResponseType and yields no value: the type byte is checked
    before the checksum and the fields. *)
Theorem decode_type_mismatch (s : Sensor) (b : Packet) :
  wf_packet b -> at_ b 0 <> Z.lor 0xA0 (code s) ->
  Response_Get b (code s) = Throw (what UnexpectedResponseType) /\
  forall v, Response_Get b (code s) <> Return v.
Proof.
  intros _ Ht.
  rewrite (decode_bad_type s b Ht).
  split; [reflexivity | discriminate].
Qed.

Lemma decode_type_mismatch_witness :
  Response_Get [0xA1; 0; 0; 0; 0; 0; 0xA1] (code VOLTAGE)
  = Throw (what UnexpectedResponseType).
Proof.
  refine (proj1 (decode_type_mismatch VOLTAGE [0xA1; 0; 0; 0; 0; 0; 0xA1] _ _)).
  - apply wf_packet_intro; unfold is_byte; lia.
  - cbn; lia.
Defined.

(** C9. A request frame is never accepted as a response: for any two
    sensors, decoding the request built for one with the other (or the
    same) expected fails with UnexpectedResponseType, since [0xB0 | code]
    is never [0xA0 | code]. *)
Theorem request_never_decodes (s s' : Sensor) :
  Response_Get (Request (code s')) (code s) = Throw (what UnexpectedResponseType)
  /\ at_ (Request (code s')) 0 = Z.lor 0xB0 (code s')
  /\ Z.lor 0xB0 (code s') <> Z.lor 0xA0 (code s)
  /\ checksum_ok (Request (code s')).
Proof.
  destruct s, s'; (split; [reflexivity |]); (split; [reflexivity |]);
    (split; [discriminate | reflexivity]).
Qed.

(** ** Corrupted frames *)

Lemma store_checksum_changes (b : Packet) (i : nat) (v : Z) :
  wf_packet b -> checksum_ok b -> (i <= 5)%nat -> is_byte v -> v <> at_ b i ->
  ~ checksum_ok (store i v b).
Proof.
  intros Hwf Hc Hi Hv Hne.
  destruct (wf_packet_inv b Hwf)
    as (b0 & b1 & b2 & b3 & b4 & b5 & b6 & -> & H0 & H1 & H2 & H3 & H4 & H5 & H6).
  unfold checksum_ok in *.
  rewrite GetChecksum_sum in Hc by assumption.
  do 6 (destruct i as [|i]; [cbn [store at_ nth] in *;
                              rewrite GetChecksum_sum by assumption;
                              unfold is_byte in *; mod_lia |]).
  lia.
Qed.

(** C3, as stated, fails twice. A frame that decodes, with byte 0 changed:
    the decoder answers UnexpectedResponseType, since it looks at the type
    byte first. A frame whose byte 6 was not the checksum, with byte 2
    changed so that it becomes the checksum: the decoder returns a value. *)
Lemma mutation_not_always_checksum_error :
  (let b := [0xA0; 0; 0; 0; 0; 0; 0xA0] in
   wf_packet b /\ checksum_ok b /\ is_byte 0xA1 /\ 0xA1 <> at_ b 0 /\
   Response_Get (store 0 0xA1 b) (code VOLTAGE) = Throw (what UnexpectedResponseType) /\
   Response_Get (store 0 0xA1 b) (code VOLTAGE) <> Throw (what ChecksumMismatch)) /\
  (let b := [0xA0; 0; 0; 0; 0; 0; 0xA1] in
   wf_packet b /\ is_byte 1 /\ 1 <> at_ b 2 /\
   Response_Get (store 2 1 b) (code VOLTAGE) = Return (f32_of_int 1) /\
   Response_Get (store 2 1 b) (code VOLTAGE) <> Throw (what ChecksumMismatch)).
Proof.
  split; cbv zeta.
  - split; [apply wf_packet_intro; unfold is_byte; lia |].
    split; [reflexivity |].
    split; [unfold is_byte; lia |].
    split; [cbn; lia |].
    split; [reflexivity | vm_compute; discriminate].
  - split; [apply wf_packet_intro; unfold is_byte; lia |].
    split; [unfold is_byte; lia |].
    split; [cbn; lia |].
    split; [vm_compute; reflexivity | vm_compute; discriminate].
Qed.

(** C3, amended. In a frame whose byte 6 is the checksum of bytes 0 to 5,
    replacing any one of bytes 0 to 5 by a different byte and leaving byte
    6 alone breaks the checksum, and decoding fails for every expected
    sensor: with ChecksumMismatch when byte 0 of the changed frame is the
    expected type byte, with UnexpectedResponseType otherwise. *)
Theorem mutation_detected (s : Sensor) (b : Packet) (i : nat) (v : Z) :
  wf_packet b -> checksum_ok b -> (i <= 5)%nat -> is_byte v -> v <> at_ b i ->
  let b' := store i v b in
  at_ b' 6 = at_ b 6 /\
  ~ checksum_ok b' /\
  (forall x, Response_Get b' (code s) <> Return x) /\
  (type_ok s b' -> Response_Get b' (code s) = Throw (what ChecksumMismatch)) /\
  (~ type_ok s b' -> Response_Get b' (code s) = Throw (what UnexpectedResponseType)).
Proof.
  intros Hwf Hc Hi Hv Hne b'.
  assert (Hbad : ~ checksum_ok b') by (apply store_checksum_changes; assumption).
  split.
  { destruct (wf_packet_inv b Hwf) as (b0 & b1 & b2 & b3 & b4 & b5 & b6 & -> & _).
    subst b'. do 6 (destruct i as [|i]; [reflexivity |]). lia. }
  split; [exact Hbad |].
  assert (Hdec : {type_ok s b'} + {~ type_ok s b'}) by apply Z.eq_dec.
  split; [| split].
  - intros x. destruct Hdec as [Ht | Ht].
    + rewrite (decode_bad_checksum s b' Ht Hbad); discriminate.
    + rewrite (decode_bad_type s b' Ht); discriminate.
  - intros Ht. apply decode_bad_checksum; assumption.
  - intros Ht. apply decode_bad_type; assumption.
Qed.

Lemma mutation_detected_witness :
  Response_Get (store 2 7 [0xA0; 0; 0; 0; 0; 0; 0xA0]) (code VOLTAGE)
  = Throw (what ChecksumMismatch).
Proof.
  refine (proj1 (proj2 (proj2 (proj2
    (mutation_detected VOLTAGE [0xA0; 0; 0; 0; 0; 0; 0xA0] 2 7 _ _ _ _ _)))) _).
  - apply wf_packet_intro; unfold is_byte; lia.
  - reflexivity.
  - lia.
  - unfold is_byte; lia.
  - cbn; lia.
  - reflexivity.
Defined.

(** C5. With the right type byte and checksum, a non-zero byte among the
    sensor's required-zero bytes makes decoding fail with MalformedField
    naming the sensor and the first such byte (it is that byte when no
    earlier required-zero byte is non-zero); for power, [B3 = 1] is
    reported as byte 3. *)
Theorem decode_malformed_field :
  (forall (s : Sensor) (b : Packet) (i : nat),
      wf_packet b -> type_ok s b -> checksum_ok b ->
      In i (required_zero s) -> at_ b i <> 0 ->
      exists j,
        Response_Get b (code s) = Throw (what (MalformedField j s)) /\
        In j (required_zero s) /\ at_ b j <> 0 /\ (j <= i)%nat /\
        (forall k, In k (required_zero s) -> (k < j)%nat -> at_ b k = 0) /\
        ((forall k, In k (required_zero s) -> (k < i)%nat -> at_ b k = 0) -> j = i)) /\
  (forall b : Packet,
      wf_packet b -> type_ok POWER b -> checksum_ok b -> at_ b 3 = 1 ->
      Response_Get b (code POWER) = Throw (what (MalformedField 3 POWER))).
Proof.
  split.
  - intros s b i _ Ht Hc Hin Hnz.
    destruct (first_nonzero_Some s b i Hin Hnz) as (j & Hf & Hj & Hjnz & Hle & Hfirst).
    exists j. rewrite (decode_after_guards s b Ht Hc), Hf.
    repeat (split; [assumption || reflexivity |]).
    intros Hbefore.
    destruct (Nat.eq_dec j i) as [E | E]; [exact E |].
    exfalso; apply Hjnz, Hbefore; [exact Hj | lia].
  - intros b _ Ht Hc H3.
    rewrite (decode_after_guards POWER b Ht Hc).
    unfold first_nonzero; cbn [required_zero find]. rewrite H3. reflexivity.
Qed.

Lemma decode_malformed_field_witness :
  (exists j,
      Response_Get (with_checksum [0xA0; 0; 0xE6; 5; 0; 9]) (code VOLTAGE)
      = Throw (what (MalformedField j VOLTAGE)) /\ j = 5%nat) /\
  Response_Get (with_checksum [0xA2; 0; 0x64; 1; 0; 0]) (code POWER)
  = Throw (what (MalformedField 3 POWER)).
Proof.
  split.
  - destruct (proj1 decode_malformed_field VOLTAGE
                (with_checksum [0xA0; 0; 0xE6; 5; 0; 9]) 5%nat)
      as (j & Hj & _ & _ & _ & _ & Heq).
    + apply wf_packet_intro; unfold is_byte; cbn; lia.
    + reflexivity.
    + reflexivity.
    + cbn; auto.
    + cbn; lia.
    + exists j. split; [exact Hj |]. apply Heq.
      intros k Hk Hlt; cbn in Hk.
      destruct Hk as [<- | [<- | []]]; [reflexivity | lia].
  - refine (proj2 decode_malformed_field _ _ _ _ _).
    + apply wf_packet_intro; unfold is_byte; cbn; lia.
    + reflexivity.
    + reflexivity.
    + reflexivity.
Defined.

(** ** Round trip *)


(** ** One exchange *)

(** C8. After the request is written, [select] is called once with the
    one-second timeout; when it answers zero or a negative number the
    exchange fails with the timeout error, and neither [read] nor the
    decoder runs: the trace ends with the [select] call and the outcome
    does not depend on what a read would have delivered. *)
Theorem exchange_times_out (d : Device) (s : Sensor) (o : OS) :
  write_result o = sizeof_Packet ->
  select_result o <= 0 ->
  run (Device_Get d (code s)) o =
    (Throw TimeoutError,
     [sys_write (Handle d) (Request (code s)) 7;
      sys_select (Handle d + 1) 1 0]) /\
  (forall fd n, ~ In (sys_read fd n) (snd (run (Device_Get d (code s)) o))) /\
  (forall o', write_result o' = write_result o ->
              select_result o' = select_result o ->
              run (Device_Get d (code s)) o' = run (Device_Get d (code s)) o).
Proof.
  intros Hw Hs.
  assert (Hrun : forall o1, write_result o1 = sizeof_Packet -> select_result o1 <= 0 ->
                 run (Device_Get d (code s)) o1 =
                 (Throw TimeoutError,
                  [sys_write (Handle d) (Request (code s)) 7;
                   sys_select (Handle d + 1) 1 0])).
  { intros o1 Hw1 Hs1.
    unfold run, Device_Get, SendRequest, WaitResponse, io_bind, call, CheckResult, lift.
    cbn [os trace fst snd app]. rewrite Hw1.
    cbn [Z.eqb sizeof_Packet Pos.eqb Ensure fst snd].
    replace (select_result o1 >? 0) with false
      by (symmetry; rewrite Z.gtb_ltb; apply Z.ltb_ge; exact Hs1).
    reflexivity. }
  split; [apply Hrun; assumption |].
  split.
  - intros fd n. rewrite (Hrun o Hw Hs). cbn.
    intros [H | [H | []]]; discriminate H.
  - intros o' Hw' Hs'.
    rewrite (Hrun o Hw Hs). apply Hrun; congruence.
Qed.

Lemma exchange_times_out_witness :
  fst (run (Device_Get {| Handle := 3 |} (code VOLTAGE)) silent_line)
  = Throw TimeoutError.
Proof.
  refine (f_equal fst (proj1 (exchange_times_out {| Handle := 3 |} VOLTAGE
                                silent_line _ _))).
  - reflexivity.
  - cbn; lia.
Defined.

(** When the device answers, the same exchange makes the three calls in
    order and returns the decoded reading. *)
Example exchange_reads_voltage :
  run (Device_Get {| Handle := 3 |} (code VOLTAGE))
      {| write_result := 7; select_result := 1; fd_isset := true;
         read_result := 7;
         read_bytes := with_checksum [0xA0; 0x00; 0xE6; 0x05; 0x00; 0x00];
         strerror_errno := "Success" |}
  = (Return (S754_finite false 15106048 (-16)),
     [sys_write 3 (Request (code VOLTAGE)) 7; sys_select 4 1 0; sys_read 3 7]).
Proof. vm_compute. reflexivity. Qed.

(** ** Single-precision arithmetic on small non-negative numbers *)

Lemma digits2_pos_size (p : positive) : digits2_pos p = Pos.size p.
Proof. induction p; cbn; congruence. Qed.

Lemma digits2_pos_log2 (p : positive) :
  Zpos (digits2_pos p) = Z.log2 (Zpos p) + 1.
Proof.
  rewrite digits2_pos_size.
  destruct p; cbn [Z.log2 Pos.size]; lia.
Qed.

Lemma digits2_pos_bounds (p : positive) :
  2 ^ (Zpos (digits2_pos p) - 1) <= Zpos p < 2 ^ Zpos (digits2_pos p).
Proof.
  rewrite digits2_pos_log2.
  replace (Z.log2 (Zpos p) + 1 - 1) with (Z.log2 (Zpos p)) by lia.
  apply (Z.log2_spec (Zpos p)); lia.
Qed.

Lemma Zdigits2_nonneg_bounds (m : Z) :
  0 <= m -> 0 <= Zdigits2 m /\ m < 2 ^ Zdigits2 m.
Proof.
  destruct m as [|p|p]; intros H; try lia.
  - cbn; lia.
  - cbn [Zdigits2]. pose proof (digits2_pos_bounds p). lia.
Qed.

Lemma Zdigits2_le (m k : Z) :
  0 <= k -> 0 <= m < 2 ^ k -> Zdigits2 m <= k.
Proof.
  intros Hk [H0 Hlt].
  destruct m as [|p|p]; [cbn; lia | | lia].
  cbn [Zdigits2]. rewrite digits2_pos_log2.
  assert (Z.log2 (Zpos p) < k) by (apply Z.log2_lt_pow2; lia).
  lia.
Qed.

Lemma iter_xO_value (d p : positive) :
  Zpos (Pos.iter xO p d) = Zpos p * 2 ^ Zpos d.
Proof.
  induction d as [|d IH] using Pos.peano_ind.
  - cbn. lia.
  - rewrite Pos.iter_succ, Pos2Z.inj_xO, IH, Pos2Z.inj_succ, Z.pow_succ_r by lia.
    lia.
Qed.

Lemma shl_align_value (m : positive) (e e' : Z) :
  exists k, 0 <= k /\ (k = 0 \/ k = e - e') /\
            snd (shl_align m e e') = e - k /\
            Zpos (fst (shl_align m e e')) = Zpos m * 2 ^ k.
Proof.
  unfold shl_align.
  destruct (e' - e) as [|d|d] eqn:E.
  - exists 0. cbn [fst snd]. lia.
  - exists 0. cbn [fst snd]. lia.
  - exists (Zpos d). cbn [fst snd]. rewrite iter_xO_value. lia.
Qed.

Lemma shr_record_of_loc_m (m : Z) (l : location) :
  shr_m (shr_record_of_loc m l) = m.
Proof. destruct l as [|[]]; reflexivity. Qed.

Lemma shr_1_bound (mrs : shr_record) (j : Z) :
  0 <= j -> 0 <= shr_m mrs < 2 ^ (j + 1) ->
  0 <= shr_m (shr_1 mrs) < 2 ^ j.
Proof.
  intros Hj. rewrite Z.pow_add_r by lia. change (2 ^ 1) with 2.
  destruct mrs as [m r t]; cbn [shr_m].
  destruct m as [|[p|p|]|p]; cbn [shr_1 shr_m]; lia.
Qed.

Lemma iter_shr_1_bound (p : positive) :
  forall (mrs : shr_record) (j : Z),
    0 <= j -> 0 <= shr_m mrs < 2 ^ (j + Zpos p) ->
    0 <= shr_m (iter_pos shr_1 p mrs) < 2 ^ j.
Proof.
  induction p as [p IH | p IH |]; intros mrs j Hj Hm; cbn [iter_pos].
  - apply IH; [exact Hj |]. apply IH; [lia |].
    apply shr_1_bound; [lia |].
    replace (j + Zpos p + Zpos p + 1) with (j + Zpos p~1) by lia. exact Hm.
  - apply IH; [exact Hj |]. apply IH; [lia |].
    replace (j + Zpos p + Zpos p) with (j + Zpos p~0) by lia. exact Hm.
  - apply shr_1_bound; assumption.
Qed.

Lemma fexp32_eq (e : Z) : fexp 24 128 e = fexp32 e.
Proof. reflexivity. Qed.

Lemma shr_fexp_bound (m e : Z) (l : location) :
  0 <= m ->
  0 <= shr_m (fst (shr_fexp 24 128 m e l)) < 2 ^ 24 /\
  (snd (shr_fexp 24 128 m e l) = e \/
   snd (shr_fexp 24 128 m e l) = fexp32 (Zdigits2 m + e)).
Proof.
  intros Hm.
  destruct (Zdigits2_nonneg_bounds m Hm) as [Hd Hlt].
  unfold shr_fexp, shr. rewrite fexp32_eq.
  destruct (fexp32 (Zdigits2 m + e) - e) as [|n|n] eqn:E; cbn [fst snd].
  - rewrite shr_record_of_loc_m. split; [| left; reflexivity].
    assert (2 ^ Zdigits2 m <= 2 ^ 24)
      by (apply Z.pow_le_mono_r; unfold fexp32 in E; lia).
    lia.
  - split; [| right; lia].
    apply iter_shr_1_bound; [lia |].
    rewrite shr_record_of_loc_m.
    assert (2 ^ Zdigits2 m <= 2 ^ (24 + Zpos n))
      by (apply Z.pow_le_mono_r; unfold fexp32 in E; lia).
    lia.
  - rewrite shr_record_of_loc_m. split; [| left; reflexivity].
    assert (2 ^ Zdigits2 m <= 2 ^ 24)
      by (apply Z.pow_le_mono_r; unfold fexp32 in E; lia).
    lia.
Qed.

Lemma round_nearest_even_bound (m : Z) (l : location) :
  0 <= m -> 0 <= round_nearest_even m l <= m + 1.
Proof.
  intros Hm. destruct l as [|[]]; cbn [round_nearest_even];
    try destruct (Z.even m); lia.
Qed.

(** Rounding a non-negative mantissa of magnitude below [2^127] gives a
    zero or a finite number of the same sign. *)
Lemma binary_round_aux_finite (s : bool) (m e : Z) (l : location) (k : Z) :
  0 <= k -> 0 <= m < 2 ^ k -> e <= 103 -> k + e <= 127 ->
  binary_round_aux 24 128 s m e l = S754_zero s \/
  exists m' e', binary_round_aux 24 128 s m e l = S754_finite s m' e'.
Proof.
  intros Hk Hm He Hke.
  unfold binary_round_aux.
  pose proof (shr_fexp_bound m e l (proj1 Hm)) as [Hm1 He1].
  pose proof (Zdigits2_le m k Hk Hm) as Hd.
  destruct (Zdigits2_nonneg_bounds m (proj1 Hm)) as [Hd0 _].
  destruct (shr_fexp 24 128 m e l) as [mrs1 e1]; cbn [fst snd] in *.
  set (m1 := round_nearest_even (shr_m mrs1) (loc_of_shr_record mrs1)).
  assert (Hm1' : 0 <= m1 < 2 ^ 25).
  { pose proof (round_nearest_even_bound (shr_m mrs1) (loc_of_shr_record mrs1)
                  (proj1 Hm1)).
    change (2 ^ 25) with (2 ^ 24 + 2 ^ 24). subst m1. lia. }
  pose proof (shr_fexp_bound m1 e1 loc_Exact (proj1 Hm1')) as [Hm2 He2].
  pose proof (Zdigits2_le m1 25 ltac:(lia) Hm1') as Hd1.
  destruct (Zdigits2_nonneg_bounds m1 (proj1 Hm1')) as [Hd10 _].
  destruct (shr_fexp 24 128 m1 e1 loc_Exact) as [mrs2 e2]; cbn [fst snd] in *.
  assert (He2' : e2 <= 104) by (unfold fexp32 in *; lia).
  destruct (shr_m mrs2) as [|p|p]; [left; reflexivity | | lia].
  right. exists p, e2.
  replace (e2 <=? 128 - 24) with true by (symmetry; apply Z.leb_le; lia).
  reflexivity.
Qed.

Lemma small_nonneg_finite (m : positive) (e : Z) :
  small_nonneg (S754_finite false m e) = true ->
  Zpos m < 2 ^ 24 /\ -40 <= e <= 0.
Proof.
  cbn [small_nonneg]. rewrite !andb_true_iff, Z.ltb_lt, !Z.leb_le. lia.
Qed.

Lemma shl_align_small (m : positive) (e e' : Z) :
  Zpos m < 2 ^ 24 -> -40 <= e' <= e -> e <= 0 ->
  Zpos (fst (shl_align m e e')) < 2 ^ 64.
Proof.
  intros Hm He' He.
  destruct (shl_align_value m e e') as (k & Hk & Hk' & _ & ->).
  assert (2 ^ k <= 2 ^ 40) by (apply Z.pow_le_mono_r; lia).
  assert (0 < 2 ^ k) by (apply Z.pow_pos_nonneg; lia).
  change (2 ^ 64) with (2 ^ 24 * 2 ^ 40). nia.
Qed.

Lemma f32_add_small (x y : f32) :
  small_nonneg x = true -> small_nonneg y = true ->
  f32_is_finite (f32_add x y) = true /\ f32_nonneg (f32_add x y) = true.
Proof.
  destruct x as [[|]|sx| |[|] mx ex]; try discriminate;
    destruct y as [[|]|sy| |[|] my ey]; try discriminate;
    intros Hx Hy; try (split; reflexivity).
  apply small_nonneg_finite in Hx, Hy.
  unfold f32_add, f32_prec, f32_emax, SFadd. cbn [cond_Zopp].
  set (ez := Z.min ex ey).
  pose proof (shl_align_small mx ex ez) as Ha.
  pose proof (shl_align_small my ey ez) as Hb.
  set (a := fst (shl_align mx ex ez)) in *.
  set (b := fst (shl_align my ey ez)) in *.
  rewrite <- Pos2Z.inj_add. cbn [binary_normalize]. unfold binary_round.
  destruct (shl_align_value (a + b) ez
              (fexp 24 128 (Zpos (digits2_pos (a + b)) + ez)))
    as (k & Hk & Hk' & Hsnd & Hfst).
  destruct (shl_align (a + b) ez _) as [mz ez']; cbn [fst snd] in *.
  assert (Hdig : 0 <= Zpos (digits2_pos (a + b))) by lia.
  assert (Hkb : k <= 200) by (rewrite fexp32_eq in Hk'; unfold fexp32 in Hk'; lia).
  assert (Hmz : 0 <= Zpos mz < 2 ^ (65 + k)).
  { split; [lia |]. rewrite Hfst, Z.pow_add_r by lia.
    assert (0 < 2 ^ k) by (apply Z.pow_pos_nonneg; lia).
    assert (Zpos (a + b) < 2 ^ 65)
      by (change (2 ^ 65) with (2 ^ 64 + 2 ^ 64); subst ez; lia).
    nia. }
  destruct (binary_round_aux_finite false (Zpos mz) ez' loc_Exact (65 + k))
    as [-> | (m' & e' & ->)]; try lia; split; reflexivity.
Qed.

Lemma digits2_pos_iter_xO (d p : positive) :
  digits2_pos (Pos.iter xO p d) = (digits2_pos p + d)%positive.
Proof.
  induction d as [|d IH] using Pos.peano_ind.
  - cbn. lia.
  - rewrite Pos.iter_succ. cbn [digits2_pos]. rewrite IH. lia.
Qed.

(** A mantissa of exactly 24 digits with an exponent in range is already
    in canonical form: rounding leaves it alone. *)
Lemma binary_round_aux_canonical (s : bool) (m : positive) (e : Z) :
  Zpos (digits2_pos m) = 24 -> -149 <= e <= 104 ->
  binary_round_aux 24 128 s (Zpos m) e loc_Exact = S754_finite s m e.
Proof.
  intros Hd He.
  assert (Hshr : forall l, l = loc_Exact ->
            shr_fexp 24 128 (Zpos m) e l
            = ({| shr_m := Zpos m; shr_r := false; shr_s := false |}, e)).
  { intros l ->. unfold shr_fexp. cbn [Zdigits2]. rewrite Hd, fexp32_eq.
    unfold fexp32.
    replace (Z.max (24 + e - 24) (-149) - e) with 0 by lia. reflexivity. }
  unfold binary_round_aux.
  rewrite (Hshr loc_Exact eq_refl).
  cbn [shr_m loc_of_shr_record round_nearest_even].
  rewrite (Hshr loc_Exact eq_refl). cbn [shr_m].
  replace (e <=? 128 - 24) with true by (symmetry; apply Z.leb_le; lia).
  reflexivity.
Qed.

(** Integers below [2^24] convert to [float] without rounding. *)
Lemma f32_of_int_exact (n : Z) :
  0 < n < 2 ^ 24 ->
  exists m e, f32_of_int n = S754_finite false m e /\
              -23 <= e <= 0 /\ Zpos m = n * 2 ^ (- e) /\ Zpos m < 2 ^ 24.
Proof.
  intros Hn. destruct n as [|p|p]; try lia.
  unfold f32_of_int, f32_prec, f32_emax. cbn [binary_normalize].
  unfold binary_round.
  pose proof (digits2_pos_bounds p) as Hb.
  pose proof (Zdigits2_le (Zpos p) 24 ltac:(lia) ltac:(lia)) as Hd.
  cbn [Zdigits2] in Hd.
  set (d := digits2_pos p) in *.
  rewrite fexp32_eq. unfold fexp32.
  replace (Z.max (Zpos d + 0 - 24) (-149)) with (Zpos d - 24) by lia.
  unfold shl_align.
  destruct (Zpos d - 24 - 0) as [|k|k] eqn:E; try lia.
  - exists p, 0.
    split; [apply binary_round_aux_canonical; subst d; lia |].
    cbn; lia.
  - exists (Pos.iter xO p k), (Zpos d - 24).
    split.
    + apply binary_round_aux_canonical; [| lia].
      rewrite digits2_pos_iter_xO. fold d. lia.
    + rewrite iter_xO_value.
      replace (- (Zpos d - 24)) with (Zpos k) by lia.
      split; [lia |]. split; [reflexivity |].
      assert (Hpow : 2 ^ 24 = 2 ^ Zpos d * 2 ^ Zpos k)
        by (rewrite <- Z.pow_add_r by lia; f_equal; lia).
      assert (0 < 2 ^ Zpos k) by (apply Z.pow_pos_nonneg; lia).
      rewrite Hpow. nia.
Qed.

Lemma f32_of_int_zero : f32_of_int 0 = S754_zero false.
Proof. reflexivity. Qed.

Lemma f32_of_int_small (n : Z) :
  0 <= n < 2 ^ 24 -> small_nonneg (f32_of_int n) = true.
Proof.
  intros Hn.
  destruct (Z.eq_dec n 0) as [-> | Hnz]; [reflexivity |].
  destruct (f32_of_int_exact n ltac:(lia)) as (m & e & -> & He & _ & Hm).
  cbn [small_nonneg]. rewrite !andb_true_iff, Z.ltb_lt, !Z.leb_le. lia.
Qed.

Lemma f32_value_scaled (m : positive) (e n : Z) :
  e <= 0 -> Zpos m = n * 2 ^ (- e) ->
  (f32_value (S754_finite false m e) == inject_Z n)%Q.
Proof.
  intros He Hm. cbn [f32_value cond_Zopp]. rewrite Hm.
  rewrite inject_Z_mult, Zpower_Qpower by lia.
  change (inject_Z 2) with (2 # 1)%Q.
  replace e with (- - e) at 2 by lia.
  rewrite (Qpower_opp (2 # 1) (- e)).
  rewrite <- Qmult_assoc, Qmult_inv_r, Qmult_1_r; [reflexivity |].
  apply Qpower_not_0. discriminate.
Qed.

Lemma f32_of_int_value (n : Z) :
  0 <= n < 2 ^ 24 ->
  f32_is_finite (f32_of_int n) = true /\
  f32_nonneg (f32_of_int n) = true /\
  (f32_value (f32_of_int n) == inject_Z n)%Q.
Proof.
  intros Hn.
  destruct (Z.eq_dec n 0) as [-> | Hnz]; [repeat split; reflexivity |].
  destruct (f32_of_int_exact n ltac:(lia)) as (m & e & -> & He & Hm & _).
  split; [reflexivity |]. split; [reflexivity |].
  apply f32_value_scaled; [lia | exact Hm].
Qed.

Lemma all_below_spec (n : nat) (P : Z -> bool) :
  all_below n P = true -> forall z, 0 <= z < Z.of_nat n -> P z = true.
Proof.
  induction n as [|n IH]; intros H z Hz; [lia |].
  cbn [all_below] in H. apply andb_true_iff in H as [Hn Hrest].
  destruct (Z.eq_dec z (Z.of_nat n)) as [-> | Hne]; [exact Hn |].
  apply IH; [exact Hrest | lia].
Qed.

(** The 256 quotients [float(B3) / 10] and the 256 quotients
    [float(B3) / 100], checked one by one. *)
Lemma byte_quotient_small (c : Z) :
  is_byte c ->
  small_nonneg (f32_div (f32_of_int c) (f32_of_int 10)) = true /\
  small_nonneg (f32_div (f32_of_int c) (f32_of_int 100)) = true.
Proof.
  intros Hc. split.
  - apply (all_below_spec 256
             (fun c => small_nonneg (f32_div (f32_of_int c) (f32_of_int 10))));
      [vm_compute; reflexivity | exact Hc].
  - apply (all_below_spec 256
             (fun c => small_nonneg (f32_div (f32_of_int c) (f32_of_int 100))));
      [vm_compute; reflexivity | exact Hc].
Qed.

Lemma f32_value_nonneg (v : f32) :
  f32_nonneg v = true -> (0 <= f32_value v)%Q.
Proof.
  destruct v as [s|s| |[|] m e]; cbn [f32_value]; intros H;
    try apply Qle_refl; try discriminate H.
  cbn [cond_Zopp].
  apply Qmult_le_0_compat; [unfold Qle; cbn; lia |].
  apply Qpower_0_le. discriminate.
Qed.

Lemma table_value_finite (s : Sensor) (b : Packet) :
  wf_packet b ->
  f32_is_finite (table_value s b) = true /\ f32_nonneg (table_value s b) = true.
Proof.
  intros Hwf.
  destruct (wf_packet_inv b Hwf)
    as (b0 & b1 & b2 & b3 & b4 & b5 & b6 & -> & H0 & H1 & H2 & H3 & _).
  unfold table_value; cbn [at_ nth].
  destruct (byte_quotient_small b3 H3) as [Hq10 Hq100].
  assert (Hint : small_nonneg (f32_of_int (256 * b1 + b2)) = true)
    by (apply f32_of_int_small; unfold is_byte in *; lia).
  destruct s; cbn [value_formula].
  - apply f32_add_small; assumption.
  - apply f32_add_small; assumption.
  - destruct (f32_of_int_value (256 * b1 + b2)) as (Hf & Hn & _);
      [unfold is_byte in *; lia | split; assumption].
  - destruct (f32_of_int_value (65536 * b1 + 256 * b2 + b3)) as (Hf & Hn & _);
      [unfold is_byte in *; lia | split; assumption].
  - split; reflexivity.
Qed.

Lemma decode_Return_inv (s : Sensor) (b : Packet) (v : f32) :
  Response_Get b (code s) = Return v ->
  type_ok s b /\ checksum_ok b /\ zeros_ok s b /\ v = table_value s b.
Proof.
  intros H.
  assert (Ht : type_ok s b).
  { destruct (Z.eq_dec (at_ b 0) (Z.lor 0xA0 (code s))) as [E | E]; [exact E |].
    rewrite (decode_bad_type s b E) in H; discriminate H. }
  assert (Hc : checksum_ok b).
  { destruct (Z.eq_dec (at_ b 6) (GetChecksum b)) as [E | E]; [exact E |].
    rewrite (decode_bad_checksum s b Ht E) in H; discriminate H. }
  rewrite (decode_after_guards s b Ht Hc) in H.
  destruct (first_nonzero s b) as [j|] eqn:Hf; [discriminate H |].
  injection H as <-.
  repeat (split; [assumption |]). split; [| reflexivity].
  intros i Hi. unfold first_nonzero in Hf.
  pose proof (find_none _ _ Hf i Hi) as Hz.
  apply negb_false_iff, Z.eqb_eq in Hz. exact Hz.
Qed.

(** ** Totality and the range of the values *)

(** C6. For each of the five sensors and every 7-byte frame the decoder
    has a defined outcome: a finite [float], or one of the three protocol
    errors (a malformed field being one of the sensor's required-zero
    bytes); control never leaves the [switch] without a [return]. The
    outcome is a function of the frame and the sensor, and decoding makes
    no system call and leaves the channel as it was. *)
Theorem decode_total (s : Sensor) (b : Packet) :
  wf_packet b ->
  Response_Get b (code s) <> Undefined /\
  ((exists v, Response_Get b (code s) = Return v /\ f32_is_finite v = true) \/
   Response_Get b (code s) = Throw (what UnexpectedResponseType) \/
   Response_Get b (code s) = Throw (what ChecksumMismatch) \/
   (exists j, In j (required_zero s) /\
              Response_Get b (code s) = Throw (what (MalformedField j s)))) /\
  (forall w, lift (Response_Get b (code s)) w = (Response_Get b (code s), w)).
Proof.
  intros Hwf.
  assert (Hcases :
    (exists v, Response_Get b (code s) = Return v /\ f32_is_finite v = true) \/
    Response_Get b (code s) = Throw (what UnexpectedResponseType) \/
    Response_Get b (code s) = Throw (what ChecksumMismatch) \/
    (exists j, In j (required_zero s) /\
               Response_Get b (code s) = Throw (what (MalformedField j s)))).
  { destruct (Z.eq_dec (at_ b 0) (Z.lor 0xA0 (code s))) as [Ht | Ht];
      [| right; left; apply decode_bad_type; exact Ht].
    destruct (Z.eq_dec (at_ b 6) (GetChecksum b)) as [Hc | Hc];
      [| right; right; left; apply decode_bad_checksum; assumption].
    rewrite (decode_after_guards s b Ht Hc).
    destruct (first_nonzero s b) as [j|] eqn:Hf.
    - right; right; right. exists j. split; [| reflexivity].
      unfold first_nonzero in Hf. apply (find_some _ _ Hf).
    - left. exists (table_value s b). split; [reflexivity |].
      apply table_value_finite; exact Hwf. }
  split; [| split; [exact Hcases | reflexivity]].
  destruct Hcases as [(v & -> & _) | [-> | [-> | (j & _ & ->)]]]; discriminate.
Qed.

Lemma decode_total_witness :
  Response_Get (with_checksum [0xA1; 0x01; 0x02; 0x03; 0; 0]) (code CURRENT)
  <> Undefined.
Proof.
  refine (proj1 (decode_total CURRENT
                   (with_checksum [0xA1; 0x01; 0x02; 0x03; 0; 0]) _)).
  apply wf_packet_intro; unfold is_byte; cbn; lia.
Defined.

(** C10. Every value the decoder returns is a finite float that is not
    negative. A power value is the integer [256*B1 + B2], between 0 and
    65535, and an energy value is the integer [65536*B1 + 256*B2 + B3],
    between 0 and 16777215: both are converted from [int] without any
    division and, being below [2^24], without rounding. *)
Theorem decode_value_range (s : Sensor) (b : Packet) (v : f32) :
  wf_packet b ->
  Response_Get b (code s) = Return v ->
  f32_is_finite v = true /\ f32_nonneg v = true /\ (0 <= f32_value v)%Q /\
  (s = POWER ->
   let n := 256 * at_ b 1 + at_ b 2 in
   0 <= n <= 65535 /\ v = f32_of_int n /\ (f32_value v == inject_Z n)%Q) /\
  (s = ENERGY ->
   let n := 65536 * at_ b 1 + 256 * at_ b 2 + at_ b 3 in
   0 <= n <= 16777215 /\ n < 2 ^ 24 /\
   v = f32_of_int n /\ (f32_value v == inject_Z n)%Q).
Proof.
  intros Hwf Hret.
  destruct (decode_Return_inv s b v Hret) as (_ & _ & _ & ->).
  destruct (table_value_finite s b Hwf) as [Hfin Hnn].
  split; [exact Hfin |]. split; [exact Hnn |].
  split; [apply f32_value_nonneg; exact Hnn |].
  destruct (wf_packet_inv b Hwf)
    as (b0 & b1 & b2 & b3 & b4 & b5 & b6 & -> & _ & H1 & H2 & H3 & _).
  unfold table_value; cbn [at_ nth]. unfold is_byte in *.
  split; intros ->; cbv zeta; cbn [value_formula].
  - split; [lia |]. split; [reflexivity |].
    apply f32_of_int_value; lia.
  - split; [lia |]. split; [lia |]. split; [reflexivity |].
    apply f32_of_int_value; lia.
Qed.

Lemma decode_value_range_witness :
  (f32_value (f32_of_int 16777215) == inject_Z 16777215)%Q.
Proof.
  pose (b := with_checksum [0xA3; 0xFF; 0xFF; 0xFF; 0; 0]).
  assert (Hwf : wf_packet b)
    by (apply wf_packet_intro; unfold is_byte; cbn; lia).
  assert (Hret : Response_Get b (code ENERGY) = Return (f32_of_int 16777215))
    by reflexivity.
  exact (proj2 (proj2 (proj2
           (proj2 (proj2 (proj2 (proj2
              (decode_value_range ENERGY b _ Hwf Hret)))) eq_refl)))).
Defined.

(** Outside the five enumerators the [switch] of [Response::Get] has no
    case: with sensor value 5 a frame that passes both guards runs off the
    end of the function. *)
Remark decode_unknown_sensor_undefined :
  Response_Get (with_checksum [0xA5; 0; 0; 0; 0; 0]) 5 = Undefined.
Proof. reflexivity. Qed.

(** The voltage and current formulas are evaluated in [float]: the frame
    [A0 00 00 01 00 00] decodes to the float nearest to one tenth,
    [13421773 * 2^-27], not to the rational 1/10. *)
Remark decode_voltage_tenth :
  Response_Get (with_checksum [0xA0; 0; 0; 1; 0; 0]) (code VOLTAGE)
  = Return (S754_finite false 13421773 (-27)) /\
  ~ (f32_value (S754_finite false 13421773 (-27)) == 1 # 10)%Q.
Proof.
  split; [vm_compute; reflexivity |].
  vm_compute. discriminate.
Qed.

(** ** More on the checksum *)

Lemma accumulate_mod (l : list Z) :
  forall init,
    accumulate l init mod 2 ^ 32 = (init + fold_right Z.add 0 l) mod 2 ^ 32.
Proof.
  unfold accumulate.
  induction l as [|x l IH]; intros init; cbn [fold_left fold_right].
  - f_equal; lia.
  - rewrite IH, Z.add_mod_idemp_l by lia. f_equal; lia.
Qed.

(** Whatever the array holds, the wrap of the 32-bit accumulator never
    shows: the checksum is the sum of the first six entries modulo 256. *)
Lemma GetChecksum_is_sum (b : list Z) :
  GetChecksum b = fold_right Z.add 0 (firstn 6 b) mod 256 /\
  is_byte (GetChecksum b).
Proof.
  split; [| apply GetChecksum_byte].
  unfold GetChecksum, to_uint8.
  assert (Hdiv : (256 | 2 ^ 32)) by (exists (2 ^ 24); reflexivity).
  rewrite <- (Z.mod_mod_divide (accumulate _ _) (2 ^ 32) 256 Hdiv).
  rewrite accumulate_mod, (Z.mod_mod_divide _ (2 ^ 32) 256 Hdiv).
  reflexivity.
Qed.

Lemma sum_Permutation (l l' : list Z) :
  Permutation l l' -> fold_right Z.add 0 l = fold_right Z.add 0 l'.
Proof.
  induction 1; cbn [fold_right]; lia.
Qed.

(** X1. The checksum sees the first six bytes only as a collection: two
    arrays whose first six bytes are rearrangements of each other have the
    same checksum, whatever their byte 6. *)
Theorem GetChecksum_Permutation (b b' : list Z) :
  Permutation (firstn 6 b) (firstn 6 b') -> GetChecksum b = GetChecksum b'.
Proof.
  intros H.
  rewrite (proj1 (GetChecksum_is_sum b)), (proj1 (GetChecksum_is_sum b')).
  rewrite (sum_Permutation _ _ H). reflexivity.
Qed.

Lemma GetChecksum_Permutation_witness :
  GetChecksum [1; 2; 3; 4; 5; 6; 0] = GetChecksum [6; 5; 4; 3; 2; 1; 9].
Proof.
  refine (GetChecksum_Permutation [1; 2; 3; 4; 5; 6; 0] [6; 5; 4; 3; 2; 1; 9] _).
  exact (Permutation_rev [1; 2; 3; 4; 5; 6]).
Defined.

(** ** More on decoding *)

Lemma what_distinct (e1 e2 : ProtocolError) (s : Sensor) (b : Packet) :
  (forall j, e1 = MalformedField j s -> (j <= 9)%nat) ->
  (forall j, e2 = MalformedField j s -> (j <= 9)%nat) ->
  (forall j s', e1 = MalformedField j s' -> s' = s) ->
  (forall j s', e2 = MalformedField j s' -> s' = s) ->
  Throw (A := f32) (what e1) = Throw (what e2) -> e1 = e2.
Proof.
  intros H1 H2 S1 S2 H. injection H as H.
  apply what_injective; [| | exact H].
  - intros i s' ->. rewrite (S1 i s' eq_refl) in *. apply (H1 i eq_refl).
  - intros i s' ->. rewrite (S2 i s' eq_refl) in *. apply (H2 i eq_refl).
Qed.

Lemma required_zero_small (s : Sensor) (j : nat) :
  In j (required_zero s) -> (1 <= j <= 5)%nat.
Proof. destruct s; cbn; intuition lia. Qed.

Lemma first_nonzero_In (s : Sensor) (b : Packet) (j : nat) :
  first_nonzero s b = Some j -> In j (required_zero s).
Proof. unfold first_nonzero; intros H; apply (find_some _ _ H). Qed.

Lemma first_nonzero_None_inv (s : Sensor) (b : Packet) :
  first_nonzero s b = None -> zeros_ok s b.
Proof.
  unfold first_nonzero, zeros_ok; intros Hf i Hi.
  pose proof (find_none _ _ Hf i Hi) as Hz.
  apply negb_false_iff, Z.eqb_eq in Hz. exact Hz.
Qed.

Lemma decode_cases (s : Sensor) (b : Packet) :
  (~ type_ok s b /\ Response_Get b (code s) = Throw (what UnexpectedResponseType)) \/
  (type_ok s b /\ ~ checksum_ok b /\
   Response_Get b (code s) = Throw (what ChecksumMismatch)) \/
  (type_ok s b /\ checksum_ok b /\
   exists j, first_nonzero s b = Some j /\ (j <= 5)%nat /\
             Response_Get b (code s) = Throw (what (MalformedField j s))) \/
  (type_ok s b /\ checksum_ok b /\ first_nonzero s b = None /\
   Response_Get b (code s) = Return (table_value s b)).
Proof.
  destruct (Z.eq_dec (at_ b 0) (Z.lor 0xA0 (code s))) as [Ht | Ht];
    [| left; split; [exact Ht | apply decode_bad_type; exact Ht]].
  destruct (Z.eq_dec (at_ b 6) (GetChecksum b)) as [Hc | Hc];
    [| right; left; split; [exact Ht |];
       split; [exact Hc | apply decode_bad_checksum; assumption]].
  right; right.
  rewrite (decode_after_guards s b Ht Hc).
  destruct (first_nonzero s b) as [j|] eqn:Hf.
  - left. split; [exact Ht |]. split; [exact Hc |].
    exists j. split; [reflexivity |]. split; [| reflexivity].
    apply (required_zero_small s), (first_nonzero_In s b), Hf.
  - right. repeat split; assumption.
Qed.

(** X2. Every outcome of the decoder has its exact condition, in the order
    of the guards: the type error when byte 0 is not the expected type
    byte; the checksum error when the type byte is right and byte 6 is not
    the checksum; a field error naming byte [j] when both are right and
    [j] is the first non-zero required-zero byte; a value when all checks
    pass, and then the table value. *)
Theorem decode_outcomes (s : Sensor) (b : Packet) :
  (Response_Get b (code s) = Throw (what UnexpectedResponseType)
   <-> ~ type_ok s b) /\
  (Response_Get b (code s) = Throw (what ChecksumMismatch)
   <-> type_ok s b /\ ~ checksum_ok b) /\
  (forall j, (j <= 9)%nat ->
     (Response_Get b (code s) = Throw (what (MalformedField j s))
      <-> type_ok s b /\ checksum_ok b /\ first_nonzero s b = Some j)) /\
  (forall v,
     Response_Get b (code s) = Return v
     <-> type_ok s b /\ checksum_ok b /\ zeros_ok s b /\ v = table_value s b).
Proof.
  pose proof (decode_cases s b) as Hcases.
  assert (Hmf : forall i j, (i <= 9)%nat -> (j <= 9)%nat ->
            Throw (A := f32) (what (MalformedField i s))
            = Throw (what (MalformedField j s)) -> i = j).
  { intros i j Hi Hj H. apply (what_distinct _ _ s b) in H.
    - injection H as ->; reflexivity.
    - intros k E; injection E as <-; exact Hi.
    - intros k E; injection E as <-; exact Hj.
    - intros k s' E; injection E as _ <-; reflexivity.
    - intros k s' E; injection E as _ <-; reflexivity. }
  assert (Hd1 : forall j, Throw (A := f32) (what UnexpectedResponseType)
                          <> Throw (what (MalformedField j s)))
    by (intros j; destruct s; discriminate).
  assert (Hd2 : forall j, Throw (A := f32) (what ChecksumMismatch)
                          <> Throw (what (MalformedField j s)))
    by (intros j; destruct s; discriminate).
  split; [| split; [| split]].
  - split.
    + intros H Ht.
      destruct Hcases as [[Hn _] | [(_ & _ & E) | [(_ & _ & j & _ & _ & E) | (_ & _ & _ & E)]]];
        [exact (Hn Ht) | | |]; rewrite E in H;
        first [discriminate H | symmetry in H; exact (Hd1 _ H)].
    + apply decode_bad_type.
  - split.
    + intros H.
      destruct Hcases as [[_ E] | [(Ht & Hc & _) | [(_ & _ & j & _ & _ & E) | (_ & _ & _ & E)]]];
        [| split; assumption | |]; rewrite E in H;
        first [discriminate H | symmetry in H; exfalso; exact (Hd2 _ H)].
    + intros [Ht Hc]. apply decode_bad_checksum; assumption.
  - intros j Hj. split.
    + intros H.
      destruct Hcases as [[_ E] | [(_ & _ & E) | [(Ht & Hc & i & Hf & Hi & E) | (_ & _ & _ & E)]]];
        rewrite E in H;
        [exfalso; exact (Hd1 _ H) | exfalso; exact (Hd2 _ H) | | discriminate H].
      apply Hmf in H; [subst i; repeat split; assumption | lia | exact Hj].
    + intros (Ht & Hc & Hf).
      rewrite (decode_after_guards s b Ht Hc), Hf. reflexivity.
  - intros v. split.
    + apply decode_Return_inv.
    + intros (Ht & Hc & Hz & ->). apply decode_valid; assumption.
Qed.

Lemma decode_outcomes_witness :
  type_ok POWER (with_checksum [0xA2; 0; 0x64; 1; 0; 0]) /\
  checksum_ok (with_checksum [0xA2; 0; 0x64; 1; 0; 0]) /\
  first_nonzero POWER (with_checksum [0xA2; 0; 0x64; 1; 0; 0]) = Some 3%nat.
Proof.
  refine (proj1 (proj1 (proj2 (proj2
    (decode_outcomes POWER (with_checksum [0xA2; 0; 0x64; 1; 0; 0]))))
    3%nat _) _).
  - lia.
  - reflexivity.
Defined.

Lemma type_byte_injective (s s' : Sensor) :
  Z.lor 0xA0 (code s) = Z.lor 0xA0 (code s') -> s = s'.
Proof. destruct s, s'; intros H; first [reflexivity | discriminate H]. Qed.

(** X3. A frame is addressed to one sensor: unless decoding it for a
    sensor fails on the type byte, decoding it for any other sensor does. *)
Theorem decode_one_sensor_only (s s' : Sensor) (b : Packet) :
  Response_Get b (code s) <> Throw (what UnexpectedResponseType) ->
  s' <> s ->
  Response_Get b (code s') = Throw (what UnexpectedResponseType).
Proof.
  intros Hs Hne.
  assert (Ht : type_ok s b).
  { destruct (Z.eq_dec (at_ b 0) (Z.lor 0xA0 (code s))) as [E | E]; [exact E |].
    exfalso; apply Hs, decode_bad_type, E. }
  apply decode_bad_type.
  unfold type_ok in *. intros Ht'. apply Hne.
  apply type_byte_injective. congruence.
Qed.

Lemma decode_one_sensor_only_witness :
  Response_Get (with_checksum [0xA0; 0x00; 0xE6; 0x05; 0x00; 0x00]) (code CURRENT)
  = Throw (what UnexpectedResponseType).
Proof.
  refine (decode_one_sensor_only VOLTAGE CURRENT _ _ _).
  - vm_compute; discriminate.
  - discriminate.
Defined.

(** X4. The checksum does not notice two bytes changing places: when a
    frame decodes, the frame with bytes 1 and 2 exchanged and the same byte
    6 decodes too, to the value of the formula on the exchanged bytes. *)
Theorem swapped_bytes_undetected (s : Sensor) (b0 b1 b2 b3 b4 b5 b6 : Z) (v : f32) :
  Response_Get [b0; b1; b2; b3; b4; b5; b6] (code s) = Return v ->
  Response_Get [b0; b2; b1; b3; b4; b5; b6] (code s)
  = Return (value_formula s b2 b1 b3).
Proof.
  intros H.
  destruct (decode_Return_inv s _ v H) as (Ht & Hc & Hz & _).
  apply (decode_valid s [b0; b2; b1; b3; b4; b5; b6]).
  - exact Ht.
  - unfold checksum_ok in *. cbn [at_ nth] in *.
    etransitivity; [exact Hc |].
    rewrite (proj1 (GetChecksum_is_sum [b0; b2; b1; b3; b4; b5; b6])),
      (proj1 (GetChecksum_is_sum [b0; b1; b2; b3; b4; b5; b6])).
    apply (f_equal (fun z => z mod 256)).
    apply sum_Permutation. cbn [firstn]. apply perm_skip, perm_swap.
  - intros i Hi. pose proof (Hz i Hi) as Hzi.
    pose proof (required_zero_small s i Hi) as Hr.
    destruct s; cbn in Hi;
      repeat (destruct Hi as [<- | Hi]; [first [exact Hzi | idtac] |]);
      try contradiction.
    + exact (Hz 2%nat ltac:(cbn; auto)).
    + exact (Hz 1%nat ltac:(cbn; auto)).
Qed.

Lemma swapped_bytes_undetected_witness :
  Response_Get [0xA2; 0x34; 0x12; 0; 0; 0; 0xE8] (code POWER)
  = Return (value_formula POWER 0x34 0x12 0).
Proof.
  refine (swapped_bytes_undetected POWER 0xA2 0x12 0x34 0 0 0 0xE8
            (f32_of_int 0x1234) _).
  reflexivity.
Defined.

Lemma f32_of_int_injective (n n' : Z) :
  0 <= n < 2 ^ 24 -> 0 <= n' < 2 ^ 24 ->
  f32_of_int n = f32_of_int n' -> n = n'.
Proof.
  intros Hn Hn' E.
  destruct (f32_of_int_value n Hn) as (_ & _ & Hv).
  destruct (f32_of_int_value n' Hn') as (_ & _ & Hv').
  rewrite E, Hv' in Hv. symmetry. apply inject_Z_injective. exact Hv.
Qed.

Lemma valid_frame_shape (s : Sensor) (b : Packet) (v : f32) :
  wf_packet b -> Response_Get b (code s) = Return v ->
  exists b1 b2 b3 b4 b5,
    is_byte b1 /\ is_byte b2 /\ is_byte b3 /\ is_byte b4 /\ is_byte b5 /\
    b = [Z.lor 0xA0 (code s); b1; b2; b3; b4; b5;
         (Z.lor 0xA0 (code s) + b1 + b2 + b3 + b4 + b5) mod 256] /\
    zeros_ok s b /\ v = value_formula s b1 b2 b3.
Proof.
  intros Hwf H.
  destruct (decode_Return_inv s b v H) as (Ht & Hc & Hz & ->).
  destruct (wf_packet_inv b Hwf)
    as (b0 & b1 & b2 & b3 & b4 & b5 & b6 & -> & H0 & H1 & H2 & H3 & H4 & H5 & H6).
  unfold type_ok, checksum_ok in *. cbn [at_ nth] in Ht, Hc.
  rewrite GetChecksum_sum in Hc by assumption. subst b0 b6.
  exists b1, b2, b3, b4, b5.
  repeat (split; [assumption || reflexivity |]). reflexivity.
Qed.

(** X5. Readings determine the frame for power, energy and the test
    probe, and only for them: two well-formed frames that decode to the
    same value are the same frame exactly when the sensor is neither
    voltage nor current (there [B3] can carry more than the fraction, so
    [B2 = 0, B3 = 10] and [B2 = 1, B3 = 0] both read 1.0). *)
Theorem decode_injective_iff (s : Sensor) :
  (forall b b' v,
      wf_packet b -> wf_packet b' ->
      Response_Get b (code s) = Return v ->
      Response_Get b' (code s) = Return v -> b = b')
  <-> (s <> VOLTAGE /\ s <> CURRENT).
Proof.
  split.
  - intros Hinj. split; intros ->.
    + specialize (Hinj [0xA0; 0; 0; 10; 0; 0; 0xAA] [0xA0; 0; 1; 0; 0; 0; 0xA1]
                       (S754_finite false 8388608 (-23))).
      assert (E : [0xA0; 0; 0; 10; 0; 0; 0xAA] = [0xA0; 0; 1; 0; 0; 0; 0xA1]).
      { apply Hinj; try (vm_compute; reflexivity);
          apply wf_packet_intro; unfold is_byte; lia. }
      discriminate E.
    + specialize (Hinj [0xA1; 0; 0; 100; 0; 0; 0x05] [0xA1; 0; 1; 0; 0; 0; 0xA2]
                       (S754_finite false 8388608 (-23))).
      assert (E : [0xA1; 0; 0; 100; 0; 0; 0x05] = [0xA1; 0; 1; 0; 0; 0; 0xA2]).
      { apply Hinj; try (vm_compute; reflexivity);
          apply wf_packet_intro; unfold is_byte; lia. }
      discriminate E.
  - intros [Hv Hc] b b' v Hwf Hwf' H H'.
    destruct (valid_frame_shape s b v Hwf H)
      as (b1 & b2 & b3 & b4 & b5 & H1 & H2 & H3 & H4 & H5 & -> & Hz & Ev).
    destruct (valid_frame_shape s b' v Hwf' H')
      as (c1 & c2 & c3 & c4 & c5 & G1 & G2 & G3 & G4 & G5 & -> & Hz' & Ev').
    unfold is_byte in *.
    assert (Z4 : b4 = 0 /\ c4 = 0).
    { split; [apply (Hz 4%nat) | apply (Hz' 4%nat)]; destruct s; cbn; auto. }
    assert (Z5 : b5 = 0 /\ c5 = 0).
    { split; [apply (Hz 5%nat) | apply (Hz' 5%nat)]; destruct s; cbn; auto 6. }
    destruct Z4 as [-> ->], Z5 as [-> ->].
    destruct s; try contradiction; cbn [value_formula] in Ev, Ev'.
    + assert (Z3 : b3 = 0 /\ c3 = 0)
        by (split; [apply (Hz 3%nat) | apply (Hz' 3%nat)]; cbn; auto).
      destruct Z3 as [-> ->].
      assert (E : 256 * b1 + b2 = 256 * c1 + c2)
        by (apply f32_of_int_injective; [lia | lia | congruence]).
      assert (b1 = c1) by lia. assert (b2 = c2) by lia. subst. reflexivity.
    + assert (E : 65536 * b1 + 256 * b2 + b3 = 65536 * c1 + 256 * c2 + c3)
        by (apply f32_of_int_injective; [lia | lia | congruence]).
      assert (b1 = c1) by lia. assert (b2 = c2) by lia. assert (b3 = c3) by lia.
      subst. reflexivity.
    + assert (Z1 : b1 = 0 /\ c1 = 0)
        by (split; [apply (Hz 1%nat) | apply (Hz' 1%nat)]; cbn; auto).
      assert (Z2 : b2 = 0 /\ c2 = 0)
        by (split; [apply (Hz 2%nat) | apply (Hz' 2%nat)]; cbn; auto).
      assert (Z3 : b3 = 0 /\ c3 = 0)
        by (split; [apply (Hz 3%nat) | apply (Hz' 3%nat)]; cbn; auto).
      destruct Z1 as [-> ->], Z2 as [-> ->], Z3 as [-> ->]. reflexivity.
Qed.

(** X6. Only one frame is accepted as the answer to a test request:
    [A4 00 00 00 00 00 A4], decoded to [+0]. *)
Theorem test_acknowledgement_unique (b : Packet) (v : f32) :
  wf_packet b ->
  Response_Get b (code TEST) = Return v ->
  b = [0xA4; 0; 0; 0; 0; 0; 0xA4] /\ v = S754_zero false.
Proof.
  intros Hwf H.
  destruct (valid_frame_shape TEST b v Hwf H)
    as (b1 & b2 & b3 & b4 & b5 & _ & _ & _ & _ & _ & -> & Hz & ->).
  pose proof (Hz 1%nat ltac:(cbn; auto)) as Z1.
  pose proof (Hz 2%nat ltac:(cbn; auto)) as Z2.
  pose proof (Hz 3%nat ltac:(cbn; auto)) as Z3.
  pose proof (Hz 4%nat ltac:(cbn; auto)) as Z4.
  pose proof (Hz 5%nat ltac:(cbn; auto 6)) as Z5.
  cbn [at_ nth] in *. subst. split; reflexivity.
Qed.

Lemma test_acknowledgement_unique_witness :
  [0xA4; 0; 0; 0; 0; 0; 0xA4] = [0xA4; 0; 0; 0; 0; 0; 0xA4]
  /\ f32_of_int 0 = S754_zero false.
Proof.
  refine (test_acknowledgement_unique [0xA4; 0; 0; 0; 0; 0; 0xA4] (f32_of_int 0) _ _).
  - apply wf_packet_intro; unfold is_byte; lia.
  - reflexivity.
Defined.

Lemma decode_injective_iff_witness :
  with_checksum [0xA3; 0x00; 0x01; 0x2C; 0; 0] = [0xA3; 0x00; 0x01; 0x2C; 0; 0; 0xD0].
Proof.
  refine (proj2 (decode_injective_iff ENERGY) _ _ _ (f32_of_int 300) _ _ _ _).
  - split; discriminate.
  - apply wf_packet_intro; unfold is_byte; cbn; lia.
  - apply wf_packet_intro; unfold is_byte; lia.
  - reflexivity.
  - reflexivity.
Defined.

(** ** More on the exchange *)

Lemma Device_Get_from (d : Device) (sens : Z) (w : World) :
  Device_Get d sens w =
  let o := os w in
  let at_trace l := {| os := o; trace := (trace w ++ l)%list |} in
  if write_result o =? 7 then
    if (select_result o >? 0) && fd_isset o then
      if read_result o =? 7 then
        (Response_Get (read_bytes o) sens,
         at_trace [the_write d sens; the_select d; the_read d])
      else
        (Throw ("Failed to read response: " ++ strerror_errno o),
         at_trace [the_write d sens; the_select d; the_read d])
    else (Throw TimeoutError, at_trace [the_write d sens; the_select d])
  else (Throw ("Failed to send request: " ++ strerror_errno o),
        at_trace [the_write d sens]).
Proof.
  unfold Device_Get, SendRequest, WaitResponse, ReadResponse,
    io_bind, call, CheckResult, lift, the_write, the_select, the_read,
    sizeof_Packet, timeout_sec, timeout_usec, TimeoutError.
  cbv zeta. cbn [os trace fst snd].
  destruct (write_result (os w) =? 7); cbn [Ensure]; [| reflexivity].
  destruct ((select_result (os w) >? 0) && fd_isset (os w)); cbn [Ensure];
    rewrite <- ?app_assoc; cbn [app]; [| reflexivity].
  destruct (read_result (os w) =? 7); cbn [Ensure]; reflexivity.
Qed.

Lemma Device_Get_run (d : Device) (sens : Z) (o : OS) :
  run (Device_Get d sens) o =
  if write_result o =? 7 then
    if (select_result o >? 0) && fd_isset o then
      if read_result o =? 7 then
        (Response_Get (read_bytes o) sens,
         [the_write d sens; the_select d; the_read d])
      else
        (Throw ("Failed to read response: " ++ strerror_errno o),
         [the_write d sens; the_select d; the_read d])
    else (Throw TimeoutError, [the_write d sens; the_select d])
  else (Throw ("Failed to send request: " ++ strerror_errno o),
        [the_write d sens]).
Proof.
  unfold run. rewrite Device_Get_from. cbv zeta. cbn [os trace app].
  destruct (write_result o =? 7); [| reflexivity].
  destruct ((select_result o >? 0) && fd_isset o); [| reflexivity].
  destruct (read_result o =? 7); reflexivity.
Qed.

(** X7. When [write] does not report seven bytes written, the exchange
    fails with [Failed to send request: ] and the text of [errno], and
    makes no further call: no [select], no [read]. *)
Theorem exchange_short_write (d : Device) (s : Sensor) (o : OS) :
  write_result o <> 7 ->
  run (Device_Get d (code s)) o =
    (Throw ("Failed to send request: " ++ strerror_errno o),
     [sys_write (Handle d) (Request (code s)) 7]).
Proof.
  intros Hw. rewrite Device_Get_run.
  apply Z.eqb_neq in Hw. rewrite Hw. reflexivity.
Qed.

Lemma exchange_short_write_witness :
  run (Device_Get {| Handle := 3 |} (code POWER))
      {| write_result := -1; select_result := 1; fd_isset := true;
         read_result := 7; read_bytes := Request (code POWER);
         strerror_errno := "Input/output error" |}
  = (Throw "Failed to send request: Input/output error",
     [sys_write 3 (Request (code POWER)) 7]).
Proof.
  refine (exchange_short_write {| Handle := 3 |} POWER _ _).
  cbn; lia.
Defined.

(** X8. A positive answer of [select] is not enough: when the descriptor
    is not in the returned set the exchange fails with the timeout error
    after the [select] call, without reading. *)
Theorem exchange_descriptor_not_set (d : Device) (s : Sensor) (o : OS) :
  write_result o = 7 -> fd_isset o = false ->
  run (Device_Get d (code s)) o =
    (Throw TimeoutError,
     [sys_write (Handle d) (Request (code s)) 7; sys_select (Handle d + 1) 1 0]).
Proof.
  intros Hw Hf. rewrite Device_Get_run, Hw, Hf, andb_false_r. reflexivity.
Qed.

Lemma exchange_descriptor_not_set_witness :
  fst (run (Device_Get {| Handle := 3 |} (code POWER))
         {| write_result := 7; select_result := 1; fd_isset := false;
            read_result := 7; read_bytes := Request (code POWER);
            strerror_errno := "Success" |})
  = Throw TimeoutError.
Proof.
  refine (f_equal fst (exchange_descriptor_not_set {| Handle := 3 |} POWER _ _ _));
    reflexivity.
Defined.

(** X9. When [read] does not report seven bytes, the exchange fails with
    [Failed to read response: ] and the text of [errno] after the three
    calls; whatever is in the buffer is not decoded. *)
Theorem exchange_short_read (d : Device) (s : Sensor) (o : OS) :
  write_result o = 7 -> select_result o > 0 -> fd_isset o = true ->
  read_result o <> 7 ->
  run (Device_Get d (code s)) o =
    (Throw ("Failed to read response: " ++ strerror_errno o),
     [sys_write (Handle d) (Request (code s)) 7;
      sys_select (Handle d + 1) 1 0;
      sys_read (Handle d) 7]).
Proof.
  intros Hw Hs Hf Hr. rewrite Device_Get_run, Hw, Hf.
  apply Z.eqb_neq in Hr. rewrite Hr.
  replace (select_result o >? 0) with true
    by (symmetry; apply Z.gtb_lt; lia).
  reflexivity.
Qed.

Lemma exchange_short_read_witness :
  fst (run (Device_Get {| Handle := 3 |} (code VOLTAGE))
         {| write_result := 7; select_result := 1; fd_isset := true;
            read_result := 4;
            read_bytes := with_checksum [0xA0; 0x00; 0xE6; 0x05; 0x00; 0x00];
            strerror_errno := "Success" |})
  = Throw "Failed to read response: Success".
Proof.
  refine (f_equal fst (exchange_short_read {| Handle := 3 |} VOLTAGE _ _ _ _ _));
    first [reflexivity | cbn; lia].
Defined.



(** X11. An exchange never repeats a call and never reorders: its calls
    are the write of the request frame, then possibly the [select] with
    the one-second timeout, then possibly the [read] of seven bytes. The
    [read] happens exactly when the write went through and [select]
    reported the descriptor readable. *)
Theorem exchange_call_order (d : Device) (sens : Z) (o : OS) :
  let calls := snd (run (Device_Get d sens) o) in
  let all := [sys_write (Handle d) (Request sens) 7;
              sys_select (Handle d + 1) 1 0;
              sys_read (Handle d) 7] in
  (calls = firstn 1 all \/ calls = firstn 2 all \/ calls = all) /\
  (In (sys_read (Handle d) 7) calls <->
   write_result o = 7 /\ select_result o > 0 /\ fd_isset o = true).
Proof.
  cbv zeta. rewrite Device_Get_run.
  unfold the_write, the_select, the_read.
  destruct (Z.eqb_spec (write_result o) 7) as [Hw | Hw].
  2:{ cbn [snd firstn]. split; [left; reflexivity |].
      split; [intros [H | []]; discriminate H | intros [H _]; contradiction]. }
  destruct (Z.gtb_spec (select_result o) 0) as [Hs | Hs]; cbn [andb].
  2:{ cbn [snd firstn]. split; [right; left; reflexivity |].
      split; [intros [H | [H | []]]; discriminate H | intros (_ & H & _); lia]. }
  destruct (fd_isset o) eqn:Hf.
  2:{ cbn [snd firstn]. split; [right; left; reflexivity |].
      split; [intros [H | [H | []]]; discriminate H
             | intros (_ & _ & H); discriminate H]. }
  assert (Hin : In (sys_read (Handle d) 7)
                  [sys_write (Handle d) (Request sens) 7;
                   sys_select (Handle d + 1) 1 0; sys_read (Handle d) 7])
    by (right; right; left; reflexivity).
  destruct (read_result o =? 7); cbn [snd];
    (split; [right; right; reflexivity |]);
    (split; [intros _; repeat split; [assumption | lia] | intros _; exact Hin]).
Qed.

Lemma exchange_call_order_witness :
  In (sys_read 3 7)
     (snd (run (Device_Get {| Handle := 3 |} (code VOLTAGE))
             {| write_result := 7; select_result := 1; fd_isset := true;
                read_result := 0; read_bytes := Body_init;
                strerror_errno := "Success" |})).
Proof.
  refine (proj2 (proj2 (exchange_call_order {| Handle := 3 |} (code VOLTAGE) _)) _).
  cbn [write_result select_result fd_isset].
  split; [reflexivity |]. split; [lia | reflexivity].
Defined.

(** X12. Whatever the line answers, an exchange for one of the five
    sensors ends in one of seven ways: a finite non-negative reading, the
    send failure, the timeout, the read failure, or one of the three
    protocol errors. *)
Theorem exchange_outcomes (d : Device) (s : Sensor) (o : OS) :
  wf_packet (read_bytes o) ->
  let r := fst (run (Device_Get d (code s)) o) in
  (exists v, r = Return v /\ f32_is_finite v = true /\ f32_nonneg v = true) \/
  r = Throw ("Failed to send request: " ++ strerror_errno o) \/
  r = Throw TimeoutError \/
  r = Throw ("Failed to read response: " ++ strerror_errno o) \/
  r = Throw (what UnexpectedResponseType) \/
  r = Throw (what ChecksumMismatch) \/
  (exists j, In j (required_zero s) /\ r = Throw (what (MalformedField j s))).
Proof.
  intros Hwf. cbv zeta. rewrite Device_Get_run.
  destruct (write_result o =? 7); [| right; left; reflexivity].
  destruct ((select_result o >? 0) && fd_isset o);
    [| right; right; left; reflexivity].
  destruct (read_result o =? 7);
    [| right; right; right; left; reflexivity].
  cbn [fst].
  destruct (decode_cases s (read_bytes o))
    as [[_ E] | [(_ & _ & E) | [(_ & _ & j & Hf & _ & E) | (_ & _ & _ & E)]]];
    rewrite E.
  - do 4 right; left; reflexivity.
  - do 5 right; left; reflexivity.
  - do 6 right. exists j. split; [exact (first_nonzero_In s _ j Hf) | reflexivity].
  - left. exists (table_value s (read_bytes o)).
    split; [reflexivity |]. apply table_value_finite; exact Hwf.
Qed.

Lemma exchange_outcomes_witness :
  fst (run (Device_Get {| Handle := 3 |} (code VOLTAGE)) silent_line)
  = Throw TimeoutError.
Proof.
  destruct (exchange_outcomes {| Handle := 3 |} VOLTAGE silent_line)
    as [(v & H & _) | [H | [H | [H | [H | [H | (j & _ & H)]]]]]];
    first [ apply wf_packet_intro; unfold is_byte; cbn; lia
          | exact H
          | vm_compute in H; discriminate H ].
Defined.

(** ** The constructor *)

Lemma on_line_CheckResult (res : bool) (op : string) (h : Host) (evs : list Event) :
  on_line (CheckResult res op) h evs =
  (Ensure res ("Failed to " ++ op ++ ": " ++ strerror_errno (line h)), evs).
Proof.
  unfold on_line, CheckResult. cbn [os trace map]. rewrite app_nil_r. reflexivity.
Qed.

Lemma Device_new_run (K : termios_h) (path : string) (h : Host) (evs : list Event) :
  let isp := cfsetispeed h (raw_mode K (tcgetattr_termios h)) (B9600 K) in
  let osp := cfsetospeed h (snd isp) (B9600 K) in
  let failed op := Throw (A := Device)
                     ("Failed to " ++ op ++ ": " ++ strerror_errno (line h)) in
  Device_new K path h evs =
  if open_result h =? -1 then
    (failed "open", (evs ++ firstn 1 (opening K path h))%list)
  else if negb (tcgetattr_result h =? 0) then
    (failed "get properties", (evs ++ firstn 2 (opening K path h))%list)
  else if negb (fst isp >=? 0) then
    (failed "set ispeed", (evs ++ firstn 2 (opening K path h))%list)
  else if negb (fst osp >=? 0) then
    (failed "set ospeed", (evs ++ firstn 2 (opening K path h))%list)
  else if negb (tcsetattr_result h =? 0) then
    (failed "set properties", (evs ++ opening K path h)%list)
  else
    (Return {| Handle := open_result h |}, (evs ++ opening K path h)%list).
Proof.
  cbv zeta. unfold Device_new, proc_bind, emit, ask, proc_ret, opening.
  cbv beta iota zeta. cbn [Handle fst snd firstn].
  rewrite ?on_line_CheckResult.
  destruct (open_result h =? -1); cbn [negb Ensure]; [reflexivity |].
  rewrite ?on_line_CheckResult.
  destruct (tcgetattr_result h =? 0); cbn [negb Ensure];
    rewrite <- ?app_assoc; cbn [app]; [| reflexivity].
  rewrite ?on_line_CheckResult.
  destruct (fst (cfsetispeed h _ _) >=? 0); cbn [negb Ensure]; [| reflexivity].
  rewrite ?on_line_CheckResult.
  destruct (fst (cfsetospeed h _ _) >=? 0); cbn [negb Ensure]; [| reflexivity].
  rewrite ?on_line_CheckResult.
  destruct (tcsetattr_result h =? 0); cbn [negb Ensure];
    rewrite <- ?app_assoc; cbn [app]; reflexivity.
Qed.

Lemma Device_new_constructed (K : termios_h) (path : string) (h : Host)
      (evs : list Event) :
  constructed K h = true ->
  Device_new K path h evs =
  (Return {| Handle := open_result h |}, (evs ++ opening K path h)%list).
Proof.
  unfold constructed; cbv zeta. rewrite !andb_true_iff.
  intros ((((H1 & H2) & H3) & H4) & H5).
  rewrite Device_new_run; cbv zeta.
  apply negb_true_iff in H1. rewrite H1, H2, H3, H4, H5. reflexivity.
Qed.

Lemma Device_new_not_constructed (K : termios_h) (path : string) (h : Host)
      (evs : list Event) :
  constructed K h = false ->
  exists op k,
    Device_new K path h evs =
    (Throw ("Failed to " ++ op ++ ": " ++ strerror_errno (line h)),
     (evs ++ firstn k (opening K path h))%list).
Proof.
  unfold constructed; cbv zeta. intros Hc.
  rewrite Device_new_run; cbv zeta.
  destruct (open_result h =? -1); [exists "open", 1%nat; reflexivity |].
  destruct (tcgetattr_result h =? 0); cbn [negb];
    [| exists "get properties", 2%nat; reflexivity].
  destruct (fst (cfsetispeed h _ _) >=? 0); cbn [negb];
    [| exists "set ispeed", 2%nat; reflexivity].
  destruct (fst (cfsetospeed h _ _) >=? 0); cbn [negb];
    [| exists "set ospeed", 2%nat; reflexivity].
  destruct (tcsetattr_result h =? 0); cbn [negb];
    [discriminate Hc | exists "set properties", 3%nat; reflexivity].
Qed.

(** ** The program *)

Lemma on_line_run {A : Type} (c : IO A) (h : Host) (evs : list Event) :
  on_line c h evs =
  (fst (run c (line h)), (evs ++ map ev_exchange (snd (run c (line h))))%list).
Proof.
  unfold on_line, run. destruct (c _) as [r w]. reflexivity.
Qed.

Lemma main_mode_sensor (dev : Device) (s : Sensor) (h : Host) (evs : list Event) :
  main_mode dev (mode_name s) h evs =
  let calls := map ev_exchange (snd (run (Device_Get dev (code s)) (line h))) in
  match fst (run (Device_Get dev (code s)) (line h)) with
  | Return v => (Return tt, (evs ++ calls ++ [shown s v; ev_endl])%list)
  | Throw msg => (Throw msg, (evs ++ calls)%list)
  | Undefined => (Undefined, (evs ++ calls)%list)
  end.
Proof.
  cbv zeta.
  destruct s; cbn [mode_name main_mode String.eqb Ascii.eqb Bool.eqb];
    unfold proc_bind, emit; rewrite on_line_run;
    destruct (fst (run _ _)); cbn [shown]; rewrite <- ?app_assoc; reflexivity.
Qed.

Lemma main_mode_unknown (dev : Device) (mode : string) (h : Host) (evs : list Event) :
  (forall s, mode <> mode_name s) ->
  main_mode dev mode h evs = (Throw ("Unknown mode " ++ mode), evs).
Proof.
  intros Hm. unfold main_mode.
  destruct (String.eqb_spec mode "test") as [E | _];
    [exfalso; exact (Hm TEST E) |].
  destruct (String.eqb_spec mode "voltage") as [E | _];
    [exfalso; exact (Hm VOLTAGE E) |].
  destruct (String.eqb_spec mode "current") as [E | _];
    [exfalso; exact (Hm CURRENT E) |].
  destruct (String.eqb_spec mode "power") as [E | _];
    [exfalso; exact (Hm POWER E) |].
  destruct (String.eqb_spec mode "energy") as [E | _];
    [exfalso; exact (Hm ENERGY E) |].
  reflexivity.
Qed.

Lemma mode_cases (mode : string) :
  (exists s, mode = mode_name s) \/ (forall s, mode <> mode_name s).
Proof.
  destruct (String.eqb_spec mode "test") as [E | N1]; [left; exists TEST; exact E |].
  destruct (String.eqb_spec mode "voltage") as [E | N2]; [left; exists VOLTAGE; exact E |].
  destruct (String.eqb_spec mode "current") as [E | N3]; [left; exists CURRENT; exact E |].
  destruct (String.eqb_spec mode "power") as [E | N4]; [left; exists POWER; exact E |].
  destruct (String.eqb_spec mode "energy") as [E | N5]; [left; exists ENERGY; exact E |].
  right. intros s; destruct s; assumption.
Qed.

Lemma main_three_args (K : termios_h) (argv0 path mode : string)
      (more : list string) (h : Host) (evs : list Event) :
  main K (argv0 :: path :: mode :: more) h evs =
  match main_try K (argv0 :: path :: mode :: more) h evs with
  | (Throw msg, evs') => (Return 1, (evs' ++ [ev_out msg; ev_endl])%list)
  | other => other
  end.
Proof.
  unfold main.
  replace (Z.of_nat (List.length (argv0 :: path :: mode :: more)) <? 3) with false
    by (symmetry; apply Z.ltb_ge; cbn [List.length]; lia).
  destruct (main_try _ _ _ _) as [[a | msg |] evs']; try reflexivity.
  unfold proc_bind, emit, proc_ret. rewrite <- app_assoc. reflexivity.
Qed.

Lemma main_try_constructed (K : termios_h) (argv0 path mode : string)
      (more : list string) (h : Host) (evs : list Event) :
  constructed K h = true ->
  let dev := {| Handle := open_result h |} in
  main_try K (argv0 :: path :: mode :: more) h evs =
  match main_mode dev mode h (evs ++ opening K path h)%list with
  | (Return _, evs') => (Return 0, (evs' ++ [ev_close (open_result h)])%list)
  | (Throw msg, evs') => (Throw msg, (evs' ++ [ev_close (open_result h)])%list)
  | (Undefined, evs') => (Undefined, (evs' ++ [ev_close (open_result h)])%list)
  end.
Proof.
  intros Hc. cbv zeta. unfold main_try, proc_bind at 1. cbn [nth].
  rewrite (Device_new_constructed K path h evs Hc).
  unfold in_scope_of, proc_bind, proc_ret, Device_delete. cbn [Handle].
  destruct (main_mode _ _ _ _) as [[a | msg |] evs']; reflexivity.
Qed.

Lemma In_firstn {A : Type} (n : nat) (l : list A) (x : A) :
  In x (firstn n l) -> In x l.
Proof.
  revert l; induction n as [|n IH]; intros [|y l] H; cbn in *; try contradiction.
  destruct H as [-> | H]; [left; reflexivity | right; apply IH; exact H].
Qed.

Lemma exchange_defined (d : Device) (s : Sensor) (o : OS) :
  fst (run (Device_Get d (code s)) o) <> Undefined.
Proof.
  rewrite Device_Get_run.
  destruct (write_result o =? 7); [| discriminate].
  destruct ((select_result o >? 0) && fd_isset o); [| discriminate].
  destruct (read_result o =? 7); [| discriminate].
  cbn [fst].
  destruct (decode_cases s (read_bytes o))
    as [[_ E] | [(_ & _ & E) | [(_ & _ & j & _ & _ & E) | (_ & _ & _ & E)]]];
    rewrite E; discriminate.
Qed.

Lemma main_usage_aux (K : termios_h) (argv0 : string) (rest : list string) (h : Host) :
  (List.length rest < 2)%nat ->
  main K (argv0 :: rest) h [] = (Return 1, [ev_out argv0; ev_out usage]).
Proof.
  intros Hlen. unfold main.
  replace (Z.of_nat (List.length (argv0 :: rest)) <? 3) with true
    by (symmetry; apply Z.ltb_lt; cbn [List.length]; lia).
  reflexivity.
Qed.

(** X13. With fewer than two arguments after the program name, [main]
    prints the program name and the usage line and returns 1 without
    touching the device: no system call is made. *)
Theorem main_usage (K : termios_h) (argv0 : string) (rest : list string) (h : Host) :
  (List.length rest < 2)%nat ->
  main K (argv0 :: rest) h [] = (Return 1, [ev_out argv0; ev_out usage]).
Proof.
  intros Hlen. unfold main.
  replace (Z.of_nat (List.length (argv0 :: rest)) <? 3) with true
    by (symmetry; apply Z.ltb_lt; cbn [List.length]; lia).
  reflexivity.
Qed.

Lemma main_usage_witness :
  main linux_termios_h ["powermon"; "/dev/ttyUSB0"]
       {| open_result := 3; tcgetattr_result := 0;
          tcgetattr_termios := {| c_iflag := 0; c_oflag := 0; c_cflag := 0;
                                  c_lflag := 0; c_cc := repeat 0 32;
                                  c_ispeed := 0; c_ospeed := 0 |};
          cfsetispeed := fun t _ => (0, t); cfsetospeed := fun t _ => (0, t);
          tcsetattr_result := 0; line := silent_line |} []
  = (Return 1, [ev_out "powermon"; ev_out usage]).
Proof.
  refine (main_usage linux_termios_h "powermon" ["/dev/ttyUSB0"] _ _).
  cbn; lia.
Defined.

Lemma main_constructed (K : termios_h) (argv0 path mode : string)
      (more : list string) (h : Host) :
  constructed K h = true ->
  main K (argv0 :: path :: mode :: more) h [] =
  match main_mode {| Handle := open_result h |} mode h (opening K path h) with
  | (Return _, evs) => (Return 0, (evs ++ [ev_close (open_result h)])%list)
  | (Throw msg, evs) =>
      (Return 1, (evs ++ [ev_close (open_result h); ev_out msg; ev_endl])%list)
  | (Undefined, evs) => (Undefined, (evs ++ [ev_close (open_result h)])%list)
  end.
Proof.
  intros Hc.
  rewrite main_three_args, (main_try_constructed K argv0 path _ more h [] Hc).
  cbv zeta. cbn [app].
  destruct (main_mode _ _ _ _) as [[a | msg |] evs]; try reflexivity.
  rewrite <- app_assoc. reflexivity.
Qed.

Lemma main_not_constructed (K : termios_h) (argv0 path mode : string)
      (more : list string) (h : Host) :
  constructed K h = false ->
  exists op k,
    main K (argv0 :: path :: mode :: more) h [] =
    (Return 1,
     (firstn k (opening K path h) ++
      [ev_out ("Failed to " ++ op ++ ": " ++ strerror_errno (line h)); ev_endl])%list)
    /\ (1 <= k <= 3)%nat.
Proof.
  intros Hc.
  assert (Hnew := Device_new_run K path h []). cbv zeta in Hnew.
  assert (Hshape : exists op k,
            Device_new K path h [] =
            (Throw ("Failed to " ++ op ++ ": " ++ strerror_errno (line h)),
             firstn k (opening K path h)) /\ (1 <= k <= 3)%nat).
  { unfold constructed in Hc; cbv zeta in Hc. rewrite Hnew. cbn [app].
    destruct (open_result h =? -1); [exists "open", 1%nat; split; [reflexivity | lia] |].
    destruct (tcgetattr_result h =? 0); cbn [negb];
      [| exists "get properties", 2%nat; split; [reflexivity | lia]].
    destruct (fst (cfsetispeed h _ _) >=? 0); cbn [negb];
      [| exists "set ispeed", 2%nat; split; [reflexivity | lia]].
    destruct (fst (cfsetospeed h _ _) >=? 0); cbn [negb];
      [| exists "set ospeed", 2%nat; split; [reflexivity | lia]].
    destruct (tcsetattr_result h =? 0); cbn [negb];
      [discriminate Hc | exists "set properties", 3%nat; split; [reflexivity | lia]]. }
  destruct Hshape as (op & k & Hnew' & Hk).
  exists op, k. split; [| exact Hk].
  rewrite main_three_args. unfold main_try, proc_bind at 1. cbn [nth].
  rewrite Hnew'. reflexivity.
Qed.

(** X14. With a device that opens and takes the settings and one of the
    five mode names, [main] performs one exchange for that sensor. When it
    yields a value, the value (or [Ok!] for the test mode) and a line end
    are printed, the descriptor is closed and [main] returns 0. When it
    fails, the descriptor is closed first, then the message and a line end
    are printed and [main] returns 1. Arguments after the mode are
    ignored. *)
Theorem main_reports_exchange (K : termios_h) (argv0 path : string) (s : Sensor)
        (more : list string) (h : Host) :
  constructed K h = true ->
  let fd := open_result h in
  let exchange := run (Device_Get {| Handle := fd |} (code s)) (line h) in
  let calls := map ev_exchange (snd exchange) in
  (forall v, fst exchange = Return v ->
     main K (argv0 :: path :: mode_name s :: more) h [] =
     (Return 0,
      (opening K path h ++ calls ++ [shown s v; ev_endl; ev_close fd])%list)) /\
  (forall msg, fst exchange = Throw msg ->
     main K (argv0 :: path :: mode_name s :: more) h [] =
     (Return 1,
      (opening K path h ++ calls ++ [ev_close fd; ev_out msg; ev_endl])%list)).
Proof.
  intros Hc. cbv zeta.
  rewrite (main_constructed K argv0 path _ more h Hc), main_mode_sensor.
  cbv zeta.
  split.
  - intros v ->. rewrite <- !app_assoc. reflexivity.
  - intros msg ->. rewrite <- !app_assoc. reflexivity.
Qed.

Lemma main_reports_exchange_witness :
  main linux_termios_h ["powermon"; "/dev/ttyUSB0"; "voltage"] quiet_host []
  = (Return 1,
     (opening linux_termios_h "/dev/ttyUSB0" quiet_host ++
      [ev_exchange (sys_write 3 (Request (code VOLTAGE)) 7);
       ev_exchange (sys_select 4 1 0);
       ev_close 3; ev_out TimeoutError; ev_endl])%list).
Proof.
  refine (proj2 (main_reports_exchange linux_termios_h "powermon" "/dev/ttyUSB0"
                   VOLTAGE [] quiet_host _) TimeoutError _);
    reflexivity.
Defined.

(** X15. The mode is looked at only after the device has been opened and
    configured: with an unknown mode [main] opens the path, rewrites the
    terminal settings, closes the descriptor, prints [Unknown mode ] with
    the mode, and returns 1. *)
Theorem main_unknown_mode (K : termios_h) (argv0 path mode : string)
        (more : list string) (h : Host) :
  constructed K h = true ->
  (forall s, mode <> mode_name s) ->
  main K (argv0 :: path :: mode :: more) h [] =
  (Return 1,
   (opening K path h ++
    [ev_close (open_result h); ev_out ("Unknown mode " ++ mode); ev_endl])%list).
Proof.
  intros Hc Hm.
  rewrite (main_constructed K argv0 path _ more h Hc),
    (main_mode_unknown _ mode h _ Hm).
  reflexivity.
Qed.

Lemma main_unknown_mode_witness :
  fst (main linux_termios_h ["powermon"; "/dev/ttyUSB0"; "frequency"] quiet_host [])
  = Return 1.
Proof.
  refine (f_equal fst (main_unknown_mode linux_termios_h "powermon" "/dev/ttyUSB0"
                         "frequency" [] quiet_host _ _)).
  - reflexivity.
  - intros s; destruct s; discriminate.
Defined.

(** X16. When the constructor fails, also after [open] has succeeded,
    [main] prints the failure of the step that failed and returns 1; the
    destructor does not run, so the descriptor is never closed by the
    program, and no exchange is attempted. *)
Theorem main_failed_setup_never_closes (K : termios_h) (argv0 path mode : string)
        (more : list string) (h : Host) :
  constructed K h = false ->
  let outcome := main K (argv0 :: path :: mode :: more) h [] in
  fst outcome = Return 1 /\
  (exists op k,
      (1 <= k <= 3)%nat /\
      snd outcome =
      (firstn k (opening K path h) ++
       [ev_out ("Failed to " ++ op ++ ": " ++ strerror_errno (line h)); ev_endl])%list) /\
  (forall e, In e (snd outcome) -> is_close e = false) /\
  (forall e c, In e (snd outcome) -> e <> ev_exchange c).
Proof.
  intros Hc. cbv zeta.
  destruct (main_not_constructed K argv0 path mode more h Hc) as (op & k & -> & Hk).
  cbn [fst snd].
  split; [reflexivity |]. split; [exists op, k; split; [exact Hk | reflexivity] |].
  assert (Hin : forall e, In e (firstn k (opening K path h) ++
                  [ev_out ("Failed to " ++ op ++ ": " ++ strerror_errno (line h));
                   ev_endl])%list ->
                is_close e = false /\ forall c, e <> ev_exchange c).
  { intros e He. apply in_app_or in He as [He | He].
    - apply In_firstn in He. unfold opening in He; cbv zeta in He.
      destruct He as [<- | [<- | [<- | []]]]; split; try reflexivity; discriminate.
    - destruct He as [<- | [<- | []]]; split; try reflexivity; discriminate. }
  split; [intros e He | intros e c He]; apply (Hin e He).
Qed.

Lemma main_failed_setup_never_closes_witness :
  forallb (fun e => negb (is_close e))
    (snd (main linux_termios_h ["powermon"; "/etc/passwd"; "voltage"]
            not_a_terminal [])) = true.
Proof.
  apply forallb_forall. intros e He. apply negb_true_iff.
  exact (proj1 (proj2 (proj2
    (main_failed_setup_never_closes linux_termios_h "powermon" "/etc/passwd"
       "voltage" [] not_a_terminal eq_refl))) e He).
Defined.

Lemma opening_no_close_no_output (K : termios_h) (path : string) (h : Host) (e : Event) :
  In e (opening K path h) -> is_close e = false.
Proof.
  unfold opening; cbv zeta.
  intros [<- | [<- | [<- | []]]]; reflexivity.
Qed.

(** X17. Once the constructor has succeeded, the descriptor returned by
    [open] is closed exactly once on every path, and after the close the
    program only prints. *)
Theorem main_closes_once (K : termios_h) (argv0 path mode : string)
        (more : list string) (h : Host) :
  constructed K h = true ->
  exists before after,
    snd (main K (argv0 :: path :: mode :: more) h []) =
    (before ++ ev_close (open_result h) :: after)%list /\
    (forall e, In e before -> is_close e = false) /\
    (forall e, In e after -> is_output e = true).
Proof.
  intros Hc. rewrite (main_constructed K argv0 path mode more h Hc).
  destruct (mode_cases mode) as [[s ->] | Hm].
  - rewrite main_mode_sensor. cbv zeta.
    set (calls := map ev_exchange _).
    assert (Hcalls : forall e, In e calls -> is_close e = false).
    { intros e He. subst calls. apply in_map_iff in He as (c & <- & _). reflexivity. }
    destruct (fst (run _ _)) as [v | msg |]; cbn [snd].
    + exists (opening K path h ++ calls ++ [shown s v; ev_endl])%list, [].
      split; [reflexivity |]. split; [| intros e []].
      intros e He. apply in_app_or in He as [He | He];
        [exact (opening_no_close_no_output K path h e He) |].
      apply in_app_or in He as [He | He]; [exact (Hcalls e He) |].
      destruct He as [<- | [<- | []]]; [destruct s |]; reflexivity.
    + exists (opening K path h ++ calls)%list, [ev_out msg; ev_endl].
      split; [rewrite <- app_assoc; reflexivity |]. split.
      * intros e He. apply in_app_or in He as [He | He];
          [exact (opening_no_close_no_output K path h e He) | exact (Hcalls e He)].
      * intros e [<- | [<- | []]]; reflexivity.
    + exists (opening K path h ++ calls)%list, [].
      split; [reflexivity |]. split; [| intros e []].
      intros e He. apply in_app_or in He as [He | He];
        [exact (opening_no_close_no_output K path h e He) | exact (Hcalls e He)].
  - rewrite (main_mode_unknown _ mode h _ Hm). cbn [snd].
    exists (opening K path h), [ev_out ("Unknown mode " ++ mode); ev_endl].
    split; [reflexivity |]. split.
    + apply opening_no_close_no_output.
    + intros e [<- | [<- | []]]; reflexivity.
Qed.

Lemma main_closes_once_witness :
  exists before after,
    snd (main linux_termios_h ["powermon"; "/dev/ttyUSB0"; "test"] quiet_host []) =
    (before ++ ev_close 3 :: after)%list /\
    (forall e, In e before -> is_close e = false) /\
    (forall e, In e after -> is_output e = true).
Proof.
  refine (main_closes_once linux_termios_h "powermon" "/dev/ttyUSB0" "test" []
            quiet_host _).
  reflexivity.
Defined.

(** X18. Started with a program name, [main] returns 0 or 1, and 0
    exactly when the device was opened and configured, the third argument
    is one of the five mode names and the exchange for that sensor yielded
    a value. *)
Theorem main_exit_code (K : termios_h) (argv : list string) (h : Host) :
  argv <> [] ->
  (fst (main K argv h []) = Return 0 \/ fst (main K argv h []) = Return 1) /\
  (fst (main K argv h []) = Return 0 <->
   constructed K h = true /\
   exists s v,
     nth_error argv 2 = Some (mode_name s) /\
     fst (run (Device_Get {| Handle := open_result h |} (code s)) (line h))
     = Return v).
Proof.
  intros Hne.
  destruct argv as [|argv0 [|path [|mode more]]]; [contradiction | | |].
  - rewrite (main_usage_aux K argv0 [] h) by (cbn; lia). cbn [fst].
    split; [right; reflexivity |].
    split; [discriminate | intros (_ & s & v & H & _); discriminate H].
  - rewrite (main_usage_aux K argv0 [path] h) by (cbn; lia). cbn [fst].
    split; [right; reflexivity |].
    split; [discriminate | intros (_ & s & v & H & _); discriminate H].
  - cbn [nth_error].
    destruct (constructed K h) eqn:Hc.
    2:{ destruct (main_not_constructed K argv0 path mode more h Hc)
          as (op & k & -> & _). cbn [fst].
        split; [right; reflexivity |].
        split; [discriminate | intros [H _]; discriminate H]. }
    rewrite (main_constructed K argv0 path mode more h Hc).
    destruct (mode_cases mode) as [[s ->] | Hm].
    + rewrite main_mode_sensor. cbv zeta.
      pose proof (exchange_defined {| Handle := open_result h |} s (line h)) as Hdef.
      destruct (fst (run (Device_Get _ (code s)) (line h))) as [v | msg |] eqn:E;
        [| | contradiction]; cbn [fst].
      * split; [left; reflexivity |].
        split; [intros _; split; [reflexivity |]; exists s, v; split; [reflexivity | exact E] |
                reflexivity].
      * split; [right; reflexivity |].
        split; [discriminate |].
        intros (_ & s' & v & Hs & Hv). injection Hs as Hs.
        assert (s' = s) by (destruct s, s'; first [reflexivity | discriminate Hs]).
        subst s'. rewrite E in Hv. discriminate Hv.
    + rewrite (main_mode_unknown _ mode h _ Hm). cbn [fst].
      split; [right; reflexivity |].
      split; [discriminate |].
      intros (_ & s & v & Hs & _). injection Hs as Hs.
      exfalso; exact (Hm s Hs).
Qed.

Lemma main_exit_code_witness :
  fst (main linux_termios_h ["powermon"; "/dev/ttyUSB0"; "power"] quiet_host [])
  = Return 0 \/
  fst (main linux_termios_h ["powermon"; "/dev/ttyUSB0"; "power"] quiet_host [])
  = Return 1.
Proof.
  refine (proj1 (main_exit_code linux_termios_h
                   ["powermon"; "/dev/ttyUSB0"; "power"] quiet_host _)).
  discriminate.
Defined.

(** ** Raw mode *)

Lemma uint32_of_bits (z : Z) :
  (forall n, 32 <= n -> Z.testbit z n = false) -> 0 <= z < 2 ^ 32.
Proof.
  intros H.
  assert (E : z = z mod 2 ^ 32).
  { apply Z.bits_inj'. intros n Hn.
    rewrite Z.testbit_mod_pow2 by lia.
    destruct (Z.ltb_spec n 32) as [Hlt | Hge]; [reflexivity |].
    cbn [andb]. apply H. exact Hge. }
  rewrite E. apply Z.mod_pos_bound. lia.
Qed.

Lemma clear_flags_bits (flags mask n : Z) :
  0 <= n ->
  Z.testbit (clear_flags flags mask) n =
  Z.testbit flags n && (n <? 32) && negb (Z.testbit mask n).
Proof.
  intros Hn. unfold clear_flags, to_uint32.
  rewrite Z.land_spec, Z.testbit_mod_pow2, Z.lnot_spec by lia.
  rewrite andb_assoc. reflexivity.
Qed.

Lemma set_flags_bits (flags mask n : Z) :
  0 <= n ->
  Z.testbit (set_flags flags mask) n =
  Z.testbit flags n || (n <? 32) && Z.testbit mask n.
Proof.
  intros Hn. unfold set_flags, to_uint32.
  rewrite Z.lor_spec, Z.testbit_mod_pow2 by lia. reflexivity.
Qed.

Lemma clear_flags_range (flags mask : Z) : 0 <= clear_flags flags mask < 2 ^ 32.
Proof.
  apply uint32_of_bits. intros n Hn.
  rewrite clear_flags_bits by lia.
  replace (n <? 32) with false by (symmetry; apply Z.ltb_ge; lia).
  rewrite andb_false_r. reflexivity.
Qed.

Lemma store_other (i j : nat) (v : Z) (l : list Z) :
  i <> j -> nth j (store i v l) 0 = nth j l 0.
Proof.
  revert i j; induction l as [|x l IH]; intros [|i] [|j] H; cbn;
    try reflexivity; try contradiction.
  apply IH. intros E; apply H; f_equal; exact E.
Qed.

Lemma store_same (i : nat) (v : Z) (l : list Z) :
  (i < List.length l)%nat -> nth i (store i v l) 0 = v.
Proof.
  revert i; induction l as [|x l IH]; intros [|i] H; cbn in *;
    try lia; try reflexivity.
  apply IH. lia.
Qed.

Lemma store_length (i : nat) (v : Z) (l : list Z) :
  List.length (store i v l) = List.length l.
Proof.
  revert i; induction l as [|x l IH]; intros [|i]; cbn; try reflexivity.
  f_equal. apply IH.
Qed.

(** X19. What the constructor changes in the terminal settings: in the
    input, output and local flags exactly the bits of the listed constants
    are cleared and no bit is set; in the control flags the bits of
    [CSIZE] and [PARENB] are cleared and those of [CS8] set; the four
    words stay within 32 bits; the speeds are left as read; of the control
    characters only [VMIN] (set to 7) and [VTIME] (set to 1) change. *)
Theorem raw_mode_settings (K : termios_h) (t : termios) :
  let t' := raw_mode K t in
  (forall n, 0 <= n < 32 ->
     Z.testbit (c_iflag t') n =
       Z.testbit (c_iflag t) n &&
       negb (Z.testbit (BRKINT K) n || Z.testbit (ICRNL K) n ||
             Z.testbit (INPCK K) n || Z.testbit (ISTRIP K) n ||
             Z.testbit (IXON K) n) /\
     Z.testbit (c_oflag t') n =
       Z.testbit (c_oflag t) n && negb (Z.testbit (OPOST K) n) /\
     Z.testbit (c_lflag t') n =
       Z.testbit (c_lflag t) n &&
       negb (Z.testbit (ECHO K) n || Z.testbit (ICANON K) n ||
             Z.testbit (IEXTEN K) n || Z.testbit (ISIG K) n) /\
     Z.testbit (c_cflag t') n =
       Z.testbit (c_cflag t) n &&
       negb (Z.testbit (CSIZE K) n || Z.testbit (PARENB K) n)
       || Z.testbit (CS8 K) n) /\
  (0 <= c_iflag t' < 2 ^ 32 /\ 0 <= c_oflag t' < 2 ^ 32 /\
   0 <= c_lflag t' < 2 ^ 32 /\ 0 <= c_cflag t' < 2 ^ 32) /\
  (c_ispeed t' = c_ispeed t /\ c_ospeed t' = c_ospeed t) /\
  List.length (c_cc t') = List.length (c_cc t) /\
  (forall i, i <> VMIN K -> i <> VTIME K -> nth i (c_cc t') 0 = nth i (c_cc t) 0) /\
  ((VTIME K < List.length (c_cc t))%nat -> nth (VTIME K) (c_cc t') 0 = 1) /\
  ((VMIN K < List.length (c_cc t))%nat -> VMIN K <> VTIME K ->
   nth (VMIN K) (c_cc t') 0 = 7).
Proof.
  cbv zeta. unfold raw_mode; cbv zeta; cbn [c_iflag c_oflag c_cflag c_lflag c_cc
                                             c_ispeed c_ospeed].
  split; [| split; [| split; [split; reflexivity | split; [| split; [| split]]]]].
  - intros n Hn.
    rewrite set_flags_bits, !clear_flags_bits, !Z.lor_spec by lia.
    replace (n <? 32) with true by (symmetry; apply Z.ltb_lt; lia).
    rewrite !andb_true_r. cbn [andb]. repeat split; reflexivity.
  - repeat split; try apply clear_flags_range.
    + apply uint32_of_bits. intros n Hn.
      rewrite set_flags_bits, clear_flags_bits by lia.
      replace (n <? 32) with false by (symmetry; apply Z.ltb_ge; lia).
      rewrite andb_false_r. reflexivity.
    + apply uint32_of_bits. intros n Hn.
      rewrite set_flags_bits, clear_flags_bits by lia.
      replace (n <? 32) with false by (symmetry; apply Z.ltb_ge; lia).
      rewrite andb_false_r. reflexivity.
  - rewrite !store_length. reflexivity.
  - intros i H1 H2. rewrite !store_other by auto. reflexivity.
  - intros H. apply store_same. rewrite store_length. exact H.
  - intros H Hne. rewrite store_other by auto. apply store_same. exact H.
Qed.

Lemma raw_mode_settings_witness :
  nth 6 (c_cc (raw_mode linux_termios_h cooked)) 0 = 7.
Proof.
  refine (proj2 (proj2 (proj2 (proj2 (proj2 (proj2
            (raw_mode_settings linux_termios_h cooked)))))) _ _).
  - cbn; lia.
  - cbn; lia.
Defined.

(** X20. The constructor stops at the first step that fails. It yields
    a device, with the descriptor [open] returned, exactly when all five
    steps succeed. Settings are read only from a descriptor that opened,
    and written only after they were read and both speeds were accepted;
    what is written is what the two speed functions made of the raw-mode
    version of what was read. *)
Theorem constructor_steps (K : termios_h) (path : string) (h : Host) :
  let isp := cfsetispeed h (raw_mode K (tcgetattr_termios h)) (B9600 K) in
  let osp := cfsetospeed h (snd isp) (B9600 K) in
  let outcome := Device_new K path h [] in
  (forall dev, fst outcome = Return dev ->
     Handle dev = open_result h /\ constructed K h = true /\
     snd outcome = opening K path h) /\
  (constructed K h = true ->
   fst outcome = Return {| Handle := open_result h |}) /\
  (forall fd action t, In (ev_tcsetattr fd action t) (snd outcome) ->
     open_result h <> -1 /\ tcgetattr_result h = 0 /\
     fst isp >= 0 /\ fst osp >= 0 /\
     fd = open_result h /\ action = TCSANOW K /\ t = snd osp) /\
  (forall fd, In (ev_tcgetattr fd) (snd outcome) ->
     open_result h <> -1 /\ fd = open_result h) /\
  fst outcome <> Undefined.
Proof.
  cbv zeta. rewrite Device_new_run; cbv zeta. cbn [app].
  unfold constructed, opening; cbv zeta.
  destruct (Z.eqb_spec (open_result h) (-1)) as [Ho | Ho]; cbn [negb andb fst snd firstn].
  { split; [intros dev H; discriminate H |].
    split; [discriminate |].
    split; [intros fd a t [H | []]; discriminate H |].
    split; [intros fd [H | []]; discriminate H | discriminate]. }
  destruct (Z.eqb_spec (tcgetattr_result h) 0) as [Hg | Hg]; cbn [negb andb fst snd firstn].
  2:{ split; [intros dev H; discriminate H |].
      split; [discriminate |].
      split; [intros fd a t [H | [H | []]]; discriminate H |].
      split; [| discriminate].
      intros fd [H | [H | []]]; [discriminate H | injection H as <-; auto]. }
  destruct (Z.geb_spec (fst (cfsetispeed h (raw_mode K (tcgetattr_termios h)) (B9600 K))) 0)
    as [Hi | Hi]; cbn [negb andb fst snd firstn].
  2:{ split; [intros dev H; discriminate H |].
      split; [discriminate |].
      split; [intros fd a t [H | [H | []]]; discriminate H |].
      split; [| discriminate].
      intros fd [H | [H | []]]; [discriminate H | injection H as <-; auto]. }
  destruct (Z.geb_spec (fst (cfsetospeed h
              (snd (cfsetispeed h (raw_mode K (tcgetattr_termios h)) (B9600 K)))
              (B9600 K))) 0)
    as [Hs | Hs]; cbn [negb andb fst snd firstn].
  2:{ split; [intros dev H; discriminate H |].
      split; [discriminate |].
      split; [intros fd a t [H | [H | []]]; discriminate H |].
      split; [| discriminate].
      intros fd [H | [H | []]]; [discriminate H | injection H as <-; auto]. }
  assert (Hset : forall fd a t,
            In (ev_tcsetattr fd a t)
               [ev_open path (Z.lor (Z.lor (O_RDWR K) (O_NOCTTY K)) (O_SYNC K));
                ev_tcgetattr (open_result h);
                ev_tcsetattr (open_result h) (TCSANOW K)
                  (snd (cfsetospeed h
                     (snd (cfsetispeed h (raw_mode K (tcgetattr_termios h)) (B9600 K)))
                     (B9600 K)))] ->
            open_result h <> -1 /\ tcgetattr_result h = 0 /\
            fst (cfsetispeed h (raw_mode K (tcgetattr_termios h)) (B9600 K)) >= 0 /\
            fst (cfsetospeed h
                   (snd (cfsetispeed h (raw_mode K (tcgetattr_termios h)) (B9600 K)))
                   (B9600 K)) >= 0 /\
            fd = open_result h /\ a = TCSANOW K /\
            t = snd (cfsetospeed h
                   (snd (cfsetispeed h (raw_mode K (tcgetattr_termios h)) (B9600 K)))
                   (B9600 K))).
  { intros fd a t [H | [H | [H | []]]]; try discriminate H.
    injection H as <- <- <-. repeat split; try assumption; lia. }
  assert (Hget : forall fd,
            In (ev_tcgetattr fd)
               [ev_open path (Z.lor (Z.lor (O_RDWR K) (O_NOCTTY K)) (O_SYNC K));
                ev_tcgetattr (open_result h);
                ev_tcsetattr (open_result h) (TCSANOW K)
                  (snd (cfsetospeed h
                     (snd (cfsetispeed h (raw_mode K (tcgetattr_termios h)) (B9600 K)))
                     (B9600 K)))] ->
            open_result h <> -1 /\ fd = open_result h).
  { intros fd [H | [H | [H | []]]]; try discriminate H.
    injection H as <-. auto. }
  destruct (Z.eqb_spec (tcsetattr_result h) 0) as [Ht | Ht]; cbn [negb fst snd].
  - split; [intros dev H; injection H as <-; repeat split; reflexivity |].
    split; [reflexivity |]. split; [exact Hset |]. split; [exact Hget | discriminate].
  - split; [intros dev H; discriminate H |].
    split; [discriminate |]. split; [exact Hset |]. split; [exact Hget | discriminate].
Qed.

Lemma constructor_steps_witness :
  fst (Device_new linux_termios_h "/dev/ttyUSB0" quiet_host [])
  = Return {| Handle := 3 |}.
Proof.
  refine (proj1 (proj2 (constructor_steps linux_termios_h "/dev/ttyUSB0" quiet_host)) _).
  reflexivity.
Defined.

(** ** Rounding: how near the decoded value is to the table value *)

Lemma shr_1_inv (m k : Z) (rec : shr_record) :
  0 <= k -> shr_inv m k rec -> shr_inv m (k + 1) (shr_1 rec).
Proof.
  intros Hk (H0 & rem & Hm & Hrem & Hr & Hs). unfold shr_inv.
  rewrite !Z.pow_add_r by lia. change (2 ^ 1) with 2.
  assert (HP : 0 < 2 ^ k) by (apply Z.pow_pos_nonneg; lia).
  set (P := 2 ^ k) in *.
  destruct rec as [mk r s]; cbn [shr_m shr_r shr_s] in *.
  assert (Hs' : r || s = false -> rem = 0).
  { intros H. apply orb_false_iff in H as [-> ->]. destruct (Hs eq_refl); lia. }
  destruct mk as [|[p|p|]|p]; cbn [shr_1 shr_m shr_r shr_s]; try lia.
  - split; [lia |]. exists rem. repeat split; try lia.
    intros H; left; apply Hs'; exact H.
  - split; [lia |]. exists (P + rem). repeat split; try lia.
    intros H; right; rewrite (Hs' H); lia.
  - split; [lia |]. exists rem. repeat split; try lia.
    intros H; left; apply Hs'; exact H.
  - split; [lia |]. exists (P + rem). repeat split; try lia.
    intros H; right; rewrite (Hs' H); lia.
Qed.

Lemma iter_shr_1_inv (p : positive) :
  forall (rec : shr_record) (m k : Z),
    0 <= k -> shr_inv m k rec ->
    shr_inv m (k + Zpos p) (iter_pos shr_1 p rec).
Proof.
  induction p as [p IH | p IH |]; intros rec m k Hk H; cbn [iter_pos].
  - replace (k + Zpos p~1) with (k + 1 + Zpos p + Zpos p) by lia.
    apply IH; [lia |]. apply IH; [lia |]. apply shr_1_inv; assumption.
  - replace (k + Zpos p~0) with (k + Zpos p + Zpos p) by lia.
    apply IH; [lia |]. apply IH; assumption.
  - apply shr_1_inv; assumption.
Qed.

Lemma round_nearest_even_half (m k : Z) (rec : shr_record) :
  0 <= k -> shr_inv m k rec ->
  let m1 := round_nearest_even (shr_m rec) (loc_of_shr_record rec) in
  shr_m rec <= m1 <= shr_m rec + 1 /\
  2 * Z.abs (m1 * 2 ^ k - m) <= 2 ^ k.
Proof.
  intros Hk (H0 & rem & Hm & Hrem & Hr & Hs). cbv zeta.
  assert (HP : 0 < 2 ^ k) by (apply Z.pow_pos_nonneg; lia).
  set (P := 2 ^ k) in *.
  destruct rec as [mk [|] [|]]; cbn [shr_m shr_r shr_s loc_of_shr_record
                                       round_nearest_even] in *.
  - split; [lia |]. lia.
  - destruct (Hs eq_refl) as [E | E]; [lia |].
    destruct (Z.even mk); split; lia.
  - split; [lia |]. lia.
  - split; [lia |]. lia.
Qed.

Lemma digits2_pos_of_range (q : positive) (k : Z) :
  2 ^ (k - 1) <= Zpos q < 2 ^ k -> Zpos (digits2_pos q) = k.
Proof.
  intros [Hlo Hhi].
  pose proof (digits2_pos_bounds q) as [Dlo Dhi].
  set (d := Zpos (digits2_pos q)) in *.
  assert (Hd : 0 < d) by (subst d; lia).
  assert (Hk : 0 < k).
  { destruct (Z.lt_ge_cases 0 k) as [H | H]; [exact H |].
    assert (2 ^ k <= 2 ^ 0) by (apply Z.pow_le_mono_r; lia).
    change (2 ^ 0) with 1 in *. lia. }
  destruct (Z.lt_trichotomy d k) as [H | [H | H]]; [| exact H |].
  - assert (2 ^ d <= 2 ^ (k - 1)) by (apply Z.pow_le_mono_r; lia). lia.
  - assert (2 ^ k <= 2 ^ (d - 1)) by (apply Z.pow_le_mono_r; lia). lia.
Qed.

Lemma normalize_tail (s : bool) (m1 e1 : Z) :
  2 ^ 23 <= m1 <= 2 ^ 24 -> -149 <= e1 <= 103 ->
  exists mr er,
    (let '(mrs'', e'') := shr_fexp 24 128 m1 e1 loc_Exact in
     match shr_m mrs'' with
     | Z0 => S754_zero s
     | Zpos m => if e'' <=? 128 - 24 then S754_finite s m e'' else S754_infinity s
     | Zneg _ => S754_nan
     end) = S754_finite s mr er /\
    e1 <= er /\ Zpos mr * 2 ^ (er - e1) = m1.
Proof.
  intros Hm He.
  destruct m1 as [|q|q]; try lia.
  destruct (Z.eq_dec (Zpos q) (2 ^ 24)) as [E | Hne].
  - injection E as ->.
    exists (8388608)%positive, (e1 + 1).
    unfold shr_fexp. cbn [Zdigits2 digits2_pos Pos.succ]. rewrite fexp32_eq.
    unfold fexp32.
    replace (Z.max (25 + e1 - 24) (-149) - e1) with 1 by lia.
    cbn [shr shr_record_of_loc iter_pos shr_1 shr_m].
    replace (e1 + 1 <=? 128 - 24) with true by (symmetry; apply Z.leb_le; lia).
    split; [reflexivity |]. split; [lia |].
    replace (e1 + 1 - e1) with 1 by lia. reflexivity.
  - assert (Hd : Zpos (digits2_pos q) = 24)
      by (apply digits2_pos_of_range; change (24 - 1) with 23; lia).
    exists q, e1.
    unfold shr_fexp. cbn [Zdigits2]. rewrite Hd, fexp32_eq. unfold fexp32.
    replace (Z.max (24 + e1 - 24) (-149) - e1) with 0 by lia.
    cbn [shr shr_record_of_loc shr_m].
    replace (e1 <=? 128 - 24) with true by (symmetry; apply Z.leb_le; lia).
    split; [reflexivity |]. split; [lia |].
    replace (e1 - e1) with 0 by lia. change (2 ^ 0) with 1. lia.
Qed.

(** Rounding a mantissa of [24 + n] digits to 24: the result is within half
    a unit of the last place kept. *)
Lemma binary_round_aux_shift (s : bool) (m : positive) (e n : Z) :
  0 < n -> Zpos (digits2_pos m) = 24 + n -> -149 <= e + n <= 103 ->
  exists mr er m1,
    binary_round_aux 24 128 s (Zpos m) e loc_Exact = S754_finite s mr er /\
    2 * Z.abs (m1 * 2 ^ n - Zpos m) <= 2 ^ n /\
    e + n <= er /\ Zpos mr * 2 ^ (er - (e + n)) = m1.
Proof.
  intros Hn Hd He.
  destruct n as [|p|p]; try lia.
  assert (Hinv : shr_inv (Zpos m) (0 + Zpos p)
                   (iter_pos shr_1 p (shr_record_of_loc (Zpos m) loc_Exact))).
  { apply iter_shr_1_inv; [lia |]. cbn [shr_record_of_loc].
    split; [cbn; lia |]. exists 0. cbn [shr_m shr_r shr_s].
    change (2 ^ 0) with 1.
    repeat split; first [lia | intros _; left; reflexivity]. }
  replace (0 + Zpos p) with (Zpos p) in Hinv by lia.
  set (rec1 := iter_pos shr_1 p (shr_record_of_loc (Zpos m) loc_Exact)) in *.
  destruct (round_nearest_even_half (Zpos m) (Zpos p) rec1 ltac:(lia) Hinv)
    as [Hm1 Hhalf].
  set (m1 := round_nearest_even (shr_m rec1) (loc_of_shr_record rec1)) in *.
  assert (Hrange : 2 ^ 23 <= shr_m rec1 < 2 ^ 24).
  { destruct Hinv as (H0 & rem & Hm & Hrem & _).
    pose proof (digits2_pos_bounds m) as [Dlo Dhi]. rewrite Hd in Dlo, Dhi.
    replace (24 + Zpos p - 1) with (23 + Zpos p) in Dlo by lia.
    rewrite Z.pow_add_r in Dlo, Dhi by lia.
    assert (HP : 0 < 2 ^ Zpos p) by (apply Z.pow_pos_nonneg; lia).
    set (P := 2 ^ Zpos p) in *. nia. }
  destruct (normalize_tail s m1 (e + Zpos p) ltac:(lia) He)
    as (mr & er & Htail & Her & Hval).
  exists mr, er, m1.
  split; [| split; [exact Hhalf | split; [exact Her | exact Hval]]].
  unfold binary_round_aux.
  assert (Hshr : shr_fexp 24 128 (Zpos m) e loc_Exact = (rec1, e + Zpos p)).
  { unfold shr_fexp. cbn [Zdigits2]. rewrite Hd, fexp32_eq. unfold fexp32.
    replace (Z.max (24 + Zpos p + e - 24) (-149) - e) with (Zpos p) by lia.
    reflexivity. }
  rewrite Hshr. exact Htail.
Qed.

Lemma two_neq_0 : ~ ((2 # 1) == 0)%Q.
Proof. discriminate. Qed.

Lemma two_pow_pos (e : Z) : (0 < (2 # 1) ^ e)%Q.
Proof. apply Qpower_0_lt. reflexivity. Qed.

Lemma dyadic_scale (m e k : Z) :
  0 <= k -> (dyadic (m * 2 ^ k) (e - k) == dyadic m e)%Q.
Proof.
  intros Hk. unfold dyadic.
  rewrite inject_Z_mult, Zpower_Qpower by lia.
  change (inject_Z 2) with (2 # 1)%Q.
  replace e with (e - k + k) at 2 by lia.
  rewrite (Qpower_plus (2 # 1) (e - k) k two_neq_0). ring.
Qed.

Lemma dyadic_minus (a b e : Z) :
  (dyadic a e - dyadic b e == dyadic (a - b) e)%Q.
Proof.
  unfold dyadic, Z.sub. rewrite inject_Z_plus, inject_Z_opp. ring.
Qed.

Lemma dyadic_plus (a b e : Z) :
  (dyadic a e + dyadic b e == dyadic (a + b) e)%Q.
Proof.
  unfold dyadic. rewrite inject_Z_plus. ring.
Qed.

Lemma dyadic_abs (a e : Z) : (Qabs (dyadic a e) == dyadic (Z.abs a) e)%Q.
Proof.
  unfold dyadic. rewrite Qabs_Qmult.
  rewrite (Qabs_pos ((2 # 1) ^ e)) by (apply Qlt_le_weak, two_pow_pos).
  reflexivity.
Qed.

Lemma dyadic_le (a b e : Z) : a <= b -> (dyadic a e <= dyadic b e)%Q.
Proof.
  intros H. unfold dyadic.
  apply Qmult_le_compat_r; [rewrite <- Zle_Qle; exact H |].
  apply Qlt_le_weak, two_pow_pos.
Qed.

Lemma dyadic_lt (a b e : Z) : a < b -> (dyadic a e < dyadic b e)%Q.
Proof.
  intros H. unfold dyadic.
  apply Qmult_lt_r; [apply two_pow_pos | rewrite <- Zlt_Qlt; exact H].
Qed.

(** Rounding to nearest: a positive mantissa whose value lies in the normal
    range becomes a finite float within half a unit in the last place. *)
Lemma binary_round_error (m : positive) (e : Z) :
  let E := Zpos (digits2_pos m) + e in
  -125 <= E <= 127 ->
  exists mr er,
    binary_round 24 128 false m e = S754_finite false mr er /\
    (Qabs (dyadic (Zpos mr) er - dyadic (Zpos m) e) * (2 # 1)
     <= dyadic 1 (E - 24))%Q.
Proof.
  cbv zeta. intros HE.
  set (d := Zpos (digits2_pos m)) in *.
  assert (Hexact : forall mr er k,
            0 <= k -> Zpos mr = Zpos m * 2 ^ k -> er = e - k ->
            (Qabs (dyadic (Zpos mr) er - dyadic (Zpos m) e) * (2 # 1)
             <= dyadic 1 (d + e - 24))%Q).
  { intros mr er k Hk Hmr ->. rewrite Hmr, dyadic_scale by exact Hk.
    setoid_replace (dyadic (Zpos m) e - dyadic (Zpos m) e)%Q with 0%Q by ring.
    cbn [Qabs]. rewrite Qmult_0_l.
    apply Qlt_le_weak. unfold dyadic. rewrite Qmult_1_l. apply two_pow_pos. }
  unfold binary_round. rewrite fexp32_eq. unfold fexp32. fold d.
  replace (Z.max (d + e - 24) (-149)) with (d + e - 24) by lia.
  unfold shl_align.
  destruct (d + e - 24 - e) as [|n|k] eqn:Hn.
  - exists m, e. split.
    + apply binary_round_aux_canonical; fold d; lia.
    + apply (Hexact m e 0); [lia | change (2 ^ 0) with 1; lia | lia].
  - destruct (binary_round_aux_shift false m e (Zpos n))
      as (mr & er & m1 & Hr & Hhalf & Her & Hval); [lia | fold d; lia | lia |].
    exists mr, er. split; [exact Hr |].
    assert (E1 : (dyadic (Zpos mr) er == dyadic (m1 * 2 ^ Zpos n) e)%Q).
    { rewrite <- Hval.
      rewrite <- (dyadic_scale (Zpos mr) er (er - (e + Zpos n))) by lia.
      rewrite <- (dyadic_scale (Zpos mr * 2 ^ (er - (e + Zpos n)))
                    (er - (er - (e + Zpos n))) (Zpos n)) by lia.
      replace (er - (er - (e + Zpos n)) - Zpos n) with e by lia. reflexivity. }
    rewrite E1, dyadic_minus, dyadic_abs.
    setoid_replace (dyadic (Z.abs (m1 * 2 ^ Zpos n - Zpos m)) e * (2 # 1))%Q
      with (dyadic (2 * Z.abs (m1 * 2 ^ Zpos n - Zpos m)) e)
      by (unfold dyadic; rewrite inject_Z_mult; change (inject_Z 2) with (2 # 1)%Q; ring).
    rewrite <- (dyadic_scale 1 (d + e - 24) (Zpos n)) by lia.
    replace (d + e - 24 - Zpos n) with e by lia.
    apply dyadic_le. lia.
  - exists (Pos.iter xO m k), (d + e - 24). split.
    + apply binary_round_aux_canonical; [| lia].
      rewrite digits2_pos_iter_xO. fold d. lia.
    + apply (Hexact _ _ (Zpos k)); [lia | apply iter_xO_value | lia].
Qed.

Lemma shl_align_down (m : positive) (e e' : Z) :
  e' <= e -> Zpos (fst (shl_align m e e')) = Zpos m * 2 ^ (e - e').
Proof.
  intros H. unfold shl_align.
  destruct (e' - e) as [|d|d] eqn:E; cbn [fst]; try lia.
  - replace (e - e') with 0 by lia. change (2 ^ 0) with 1. lia.
  - rewrite iter_xO_value. f_equal. f_equal. lia.
Qed.

Lemma pow2_split (a b : Z) : 0 <= a -> 0 <= b -> 2 ^ a * 2 ^ b = 2 ^ (a + b).
Proof. intros; rewrite Z.pow_add_r by lia; reflexivity. Qed.

(** Adding two positive floats whose sum stays below [2^17]: the result is
    finite and within [2^-8] of the exact sum. *)
Lemma f32_add_near (mx my : positive) (ex ey Bx By : Z) :
  -40 <= ex <= 0 -> -40 <= ey <= 0 ->
  Zpos mx <= Bx * 2 ^ (- ex) -> Zpos my <= By * 2 ^ (- ey) ->
  Bx + By < 2 ^ 17 ->
  exists mr er,
    f32_add (S754_finite false mx ex) (S754_finite false my ey)
    = S754_finite false mr er /\
    (Qabs (dyadic (Zpos mr) er - (dyadic (Zpos mx) ex + dyadic (Zpos my) ey))
     <= 1 # 256)%Q.
Proof.
  intros Hex Hey Hmx Hmy HB.
  unfold f32_add, f32_prec, f32_emax, SFadd. cbn [cond_Zopp].
  set (ez := Z.min ex ey).
  pose proof (shl_align_down mx ex ez ltac:(subst ez; lia)) as Ha.
  pose proof (shl_align_down my ey ez ltac:(subst ez; lia)) as Hb.
  set (a := fst (shl_align mx ex ez)) in *.
  set (b := fst (shl_align my ey ez)) in *.
  rewrite <- Pos2Z.inj_add. cbn [binary_normalize].
  assert (Hez : -40 <= ez <= 0) by (subst ez; lia).
  assert (Hsum : (dyadic (Zpos mx) ex + dyadic (Zpos my) ey
                  == dyadic (Zpos (a + b)) ez)%Q).
  { rewrite Pos2Z.inj_add, <- dyadic_plus, Ha, Hb.
    rewrite <- (dyadic_scale (Zpos mx) ex (ex - ez)) by lia.
    rewrite <- (dyadic_scale (Zpos my) ey (ey - ez)) by lia.
    replace (ex - (ex - ez)) with ez by lia.
    replace (ey - (ey - ez)) with ez by lia. reflexivity. }
  assert (Hbound : Zpos (a + b) < 2 ^ (17 - ez)).
  { rewrite Pos2Z.inj_add, Ha, Hb.
    assert (Pa : 0 < 2 ^ (ex - ez)) by (apply Z.pow_pos_nonneg; lia).
    assert (Pb : 0 < 2 ^ (ey - ez)) by (apply Z.pow_pos_nonneg; lia).
    assert (Pz : 0 < 2 ^ (- ez)) by (apply Z.pow_pos_nonneg; lia).
    assert (Ea : 2 ^ (- ex) * 2 ^ (ex - ez) = 2 ^ (- ez))
      by (rewrite pow2_split by lia; f_equal; lia).
    assert (Eb : 2 ^ (- ey) * 2 ^ (ey - ez) = 2 ^ (- ez))
      by (rewrite pow2_split by lia; f_equal; lia).
    assert (E17 : 2 ^ 17 * 2 ^ (- ez) = 2 ^ (17 - ez))
      by (rewrite pow2_split by lia; f_equal; lia).
    assert (Zpos mx * 2 ^ (ex - ez) <= Bx * 2 ^ (- ez))
      by (rewrite <- Ea, Z.mul_assoc; apply Z.mul_le_mono_nonneg_r; lia).
    assert (Zpos my * 2 ^ (ey - ez) <= By * 2 ^ (- ez))
      by (rewrite <- Eb, Z.mul_assoc; apply Z.mul_le_mono_nonneg_r; lia).
    rewrite <- E17. nia. }
  pose proof (Zdigits2_le (Zpos (a + b)) (17 - ez) ltac:(lia) ltac:(lia)) as Hd.
  cbn [Zdigits2] in Hd.
  destruct (binary_round_error (a + b) ez) as (mr & er & Hr & Herr);
    [cbv zeta; lia |].
  exists mr, er. split; [exact Hr |].
  rewrite Hsum.
  assert (Hulp : (dyadic 1 (Zpos (digits2_pos (a + b)) + ez - 24) <= 1 # 128)%Q).
  { unfold dyadic. rewrite Qmult_1_l.
    change (1 # 128)%Q with ((2 # 1) ^ (-7))%Q.
    apply Qpower_le_compat_l; [lia | discriminate]. }
  set (X := Qabs _) in *.
  apply (Qmult_le_r _ _ (2 # 1)); [reflexivity |].
  eapply Qle_trans; [exact Herr |].
  eapply Qle_trans; [exact Hulp |]. discriminate.
Qed.

Lemma byte_quotient_near (c : Z) :
  is_byte c ->
  quotient_ok 10 c (f32_div (f32_of_int c) (f32_of_int 10)) = true /\
  quotient_ok 100 c (f32_div (f32_of_int c) (f32_of_int 100)) = true.
Proof.
  intros Hc. split.
  - apply (all_below_spec 256
             (fun c => quotient_ok 10 c (f32_div (f32_of_int c) (f32_of_int 10))));
      [vm_compute; reflexivity | exact Hc].
  - apply (all_below_spec 256
             (fun c => quotient_ok 100 c (f32_div (f32_of_int c) (f32_of_int 100))));
      [vm_compute; reflexivity | exact Hc].
Qed.

Lemma f32_value_dyadic (m : positive) (e : Z) :
  f32_value (S754_finite false m e) = dyadic (Zpos m) e.
Proof. reflexivity. Qed.

Lemma sum_with_quotient_near (I c d : Z) (q : f32) :
  0 <= I <= 65535 ->
  quotient_ok d c q = true ->
  let v := f32_add (f32_of_int I) q in
  f32_is_finite v = true /\
  (Qabs (f32_value v - (inject_Z I + inject_Z c / inject_Z d))
   <= (1 # 256) + (1 # 1048576))%Q.
Proof.
  intros HI Hq. cbv zeta.
  assert (Hzero : forall x : Q, (x == 0)%Q -> (Qabs x <= (1 # 256) + (1 # 1048576))%Q)
    by (intros x ->; discriminate).
  destruct q as [[|]|sq| |[|] my ey]; cbn [quotient_ok] in Hq; try discriminate Hq.
  - (* the quotient is +0, so [c = 0] *)
    apply Z.eqb_eq in Hq. subst c.
    destruct (Z.eq_dec I 0) as [-> | HI0].
    + split; [reflexivity |]. apply Hzero. reflexivity.
    + destruct (f32_of_int_exact I ltac:(lia)) as (mx & ex & -> & Hex & Hmx & _).
      split; [reflexivity |]. apply Hzero.
      change (f32_add (S754_finite false mx ex) (S754_zero false))
        with (S754_finite false mx ex).
      rewrite (f32_value_scaled mx ex I) by (lia || exact Hmx).
      unfold Qdiv. rewrite Qmult_0_l. ring.
  - rewrite !andb_true_iff, Z.ltb_lt, !Z.leb_le, Qle_bool_iff in Hq.
    destruct Hq as ((((Hm24 & Hlo) & Hhi) & Hmy) & Hq).
    destruct (Z.eq_dec I 0) as [-> | HI0].
    + change (f32_add (f32_of_int 0) (S754_finite false my ey))
        with (S754_finite false my ey).
      split; [reflexivity |]. rewrite f32_value_dyadic.
      setoid_replace (dyadic (Zpos my) ey - (inject_Z 0 + inject_Z c / inject_Z d))%Q
        with (dyadic (Zpos my) ey - inject_Z c / inject_Z d)%Q
        by (change (inject_Z 0) with 0%Q; ring).
      eapply Qle_trans; [exact Hq | discriminate].
    + destruct (f32_of_int_exact I ltac:(lia)) as (mx & ex & -> & Hex & Hmx & _).
      destruct (f32_add_near mx my ex ey I 26) as (mr & er & -> & Herr);
        try lia.
      split; [reflexivity |]. rewrite f32_value_dyadic.
      pose proof (f32_value_scaled mx ex I ltac:(lia) Hmx) as HX.
      rewrite f32_value_dyadic in HX.
      setoid_replace (dyadic (Zpos mr) er - (inject_Z I + inject_Z c / inject_Z d))%Q
        with ((dyadic (Zpos mr) er - (dyadic (Zpos mx) ex + dyadic (Zpos my) ey))
              + (dyadic (Zpos my) ey - inject_Z c / inject_Z d))%Q
        by (rewrite HX; ring).
      eapply Qle_trans; [apply Qabs_triangle |].
      apply Qplus_le_compat; assumption.
Qed.

Lemma sum_with_zero_exact (I : Z) :
  0 <= I <= 65535 ->
  (f32_value (f32_add (f32_of_int I) (S754_zero false)) == inject_Z I)%Q.
Proof.
  intros HI.
  destruct (Z.eq_dec I 0) as [-> | HI0]; [reflexivity |].
  destruct (f32_of_int_exact I ltac:(lia)) as (mx & ex & -> & Hex & Hmx & _).
  change (f32_add (S754_finite false mx ex) (S754_zero false))
    with (S754_finite false mx ex).
  apply f32_value_scaled; [lia | exact Hmx].
Qed.

Lemma Qabs_zero_le (x y : Q) : (x == y)%Q -> (Qabs (x - y) <= 0)%Q.
Proof.
  intros H. setoid_replace (x - y)%Q with 0%Q by (rewrite H; ring).
  discriminate.
Qed.

(** The code's formulas against the table: exact for power, energy and the
    test probe and whenever [B3 = 0]; within the rounding bound for voltage
    and current. *)
Lemma value_formula_near (s : Sensor) (B1 B2 B3 : Z) :
  is_byte B1 -> is_byte B2 -> is_byte B3 ->
  let v := value_formula s B1 B2 B3 in
  f32_is_finite v = true /\
  (Qabs (f32_value v - table_exact s B1 B2 B3) <= rounding_bound s)%Q /\
  (s = POWER \/ s = ENERGY \/ s = TEST \/ B3 = 0 ->
   (f32_value v == table_exact s B1 B2 B3)%Q).
Proof.
  unfold is_byte. intros H1 H2 H3. cbv zeta.
  destruct (byte_quotient_near B3 H3) as [Hq10 Hq100].
  assert (Hzero10 : f32_div (f32_of_int 0) (f32_of_int 10) = S754_zero false)
    by reflexivity.
  assert (Hzero100 : f32_div (f32_of_int 0) (f32_of_int 100) = S754_zero false)
    by reflexivity.
  destruct s; cbn [value_formula table_exact rounding_bound].
  - destruct (sum_with_quotient_near (256 * B1 + B2) B3 10 _ ltac:(lia) Hq10)
      as [Hfin Herr].
    split; [exact Hfin |]. split; [exact Herr |].
    intros [H | [H | [H | ->]]]; try discriminate H.
    rewrite Hzero10, sum_with_zero_exact by lia.
    change (inject_Z 0) with 0%Q. unfold Qdiv. rewrite Qmult_0_l. ring.
  - destruct (sum_with_quotient_near (256 * B1 + B2) B3 100 _ ltac:(lia) Hq100)
      as [Hfin Herr].
    split; [exact Hfin |]. split; [exact Herr |].
    intros [H | [H | [H | ->]]]; try discriminate H.
    rewrite Hzero100, sum_with_zero_exact by lia.
    change (inject_Z 0) with 0%Q. unfold Qdiv. rewrite Qmult_0_l. ring.
  - destruct (f32_of_int_value (256 * B1 + B2) ltac:(lia)) as (Hfin & _ & Hv).
    split; [exact Hfin |]. split; [apply Qabs_zero_le; exact Hv |].
    intros _; exact Hv.
  - destruct (f32_of_int_value (65536 * B1 + 256 * B2 + B3) ltac:(lia))
      as (Hfin & _ & Hv).
    split; [exact Hfin |]. split; [apply Qabs_zero_le; exact Hv |].
    intros _; exact Hv.
  - split; [reflexivity |]. split; [discriminate |].
    intros _; reflexivity.
Qed.

(** C1, as stated, fails for voltage and current. The current frame
    [A1 00 07 61 00 00 09] passes the three checks and its table value is
    7.97; the decoder returns [16714302 * 2^-21], which is not 7.97 and not
    even the float nearest to it: [16714301 * 2^-21] is nearer. *)
Lemma decode_not_exactly_table_value :
  let b := [0xA1; 0x00; 0x07; 0x61; 0x00; 0x00; 0x09] in
  let v := S754_finite false 16714302 (-21) in
  wf_packet b /\ type_ok CURRENT b /\ checksum_ok b /\ zeros_ok CURRENT b /\
  Response_Get b (code CURRENT) = Return v /\
  (table_exact CURRENT 0x00 0x07 0x61 == 797 # 100)%Q /\
  ~ (f32_value v == table_exact CURRENT 0x00 0x07 0x61)%Q /\
  (Qabs (f32_value (S754_finite false 16714301 (-21))
         - table_exact CURRENT 0x00 0x07 0x61)
   < Qabs (f32_value v - table_exact CURRENT 0x00 0x07 0x61))%Q.
Proof.
  cbv zeta.
  split; [apply wf_packet_intro; unfold is_byte; lia |].
  split; [reflexivity |]. split; [reflexivity |].
  split; [intros i Hi; cbn in Hi; destruct Hi as [<- | [<- | []]]; reflexivity |].
  split; [vm_compute; reflexivity |].
  split; [reflexivity |].
  split; [vm_compute; discriminate | vm_compute; reflexivity].
Qed.

(** C1, amended. A response that passes the type-byte check, the checksum
    check and its sensor's required-zero checks decodes to a finite float.
    For power, energy and the test probe it is exactly the table value
    [256*B1 + B2], [65536*B1 + 256*B2 + B3], [0]. For voltage and current
    it is the table value [256*B1 + B2 + B3/10], [256*B1 + B2 + B3/100] as
    single precision computes it: exactly when [B3 = 0], and never further
    than [2^-8 + 2^-20] from it. The voltage frame [A0 00 E6 05 00 00] with
    its checksum decodes to exactly 230.5 and the energy frame
    [A3 00 01 2C 00 00] with its checksum to exactly 300. *)
Theorem decode_near_table_value :
  (forall (s : Sensor) (b : Packet),
      wf_packet b -> type_ok s b -> checksum_ok b -> zeros_ok s b ->
      exists v,
        Response_Get b (code s) = Return v /\
        f32_is_finite v = true /\
        (Qabs (f32_value v - table_exact s (at_ b 1) (at_ b 2) (at_ b 3))
         <= rounding_bound s)%Q /\
        (s = POWER \/ s = ENERGY \/ s = TEST \/ at_ b 3 = 0 ->
         (f32_value v == table_exact s (at_ b 1) (at_ b 2) (at_ b 3))%Q)) /\
  (exists v, Response_Get (with_checksum [0xA0; 0x00; 0xE6; 0x05; 0x00; 0x00])
                          (code VOLTAGE) = Return v /\
             f32_is_finite v = true /\ (f32_value v == 230.5)%Q /\
             (table_exact VOLTAGE 0x00 0xE6 0x05 == 230.5)%Q) /\
  (exists v, Response_Get (with_checksum [0xA3; 0x00; 0x01; 0x2C; 0x00; 0x00])
                          (code ENERGY) = Return v /\
             f32_is_finite v = true /\ (f32_value v == 300)%Q /\
             (table_exact ENERGY 0x00 0x01 0x2C == 300)%Q).
Proof.
  split; [| split].
  - intros s b Hwf Ht Hc Hz.
    exists (table_value s b).
    split; [apply decode_valid; assumption |].
    destruct (wf_packet_inv b Hwf)
      as (b0 & b1 & b2 & b3 & b4 & b5 & b6 & -> & _ & H1 & H2 & H3 & _).
    unfold table_value. cbn [at_ nth].
    apply value_formula_near; assumption.
  - eexists. split; [vm_compute; reflexivity |].
    split; [reflexivity |]. split; vm_compute; reflexivity.
  - eexists. split; [vm_compute; reflexivity |].
    split; [reflexivity |]. split; vm_compute; reflexivity.
Qed.

Lemma decode_near_table_value_witness :
  exists v,
    Response_Get [0xA1; 0x00; 0x07; 0x61; 0x00; 0x00; 0x09] (code CURRENT) = Return v /\
    f32_is_finite v = true /\
    (Qabs (f32_value v - table_exact CURRENT 0x00 0x07 0x61)
     <= rounding_bound CURRENT)%Q.
Proof.
  destruct (proj1 decode_near_table_value CURRENT
              [0xA1; 0x00; 0x07; 0x61; 0x00; 0x00; 0x09])
    as (v & Hv & Hfin & Herr & _).
  - apply wf_packet_intro; unfold is_byte; lia.
  - reflexivity.
  - reflexivity.
  - intros i Hi; cbn in Hi; destruct Hi as [<- | [<- | []]]; reflexivity.
  - exists v. split; [exact Hv |]. split; [exact Hfin | exact Herr].
Defined.



